(** * zquant: factor configuration service and turnover-rate calculator

    A shallow embedding of [zquant/services/factor.py] (class
    [FactorService]) and of the turnover-rate calculator, together with the
    properties of the model resolver, of write-time validation, of the
    default-model bookkeeping and of the calculator.

    Python values are rendered as follows.
    - a JSON dict read with [d.get(k)] is a record whose fields are
      [option]s.  In a mapping, read with [mapping.get(k)], [None] stands for
      an absent key or a JSON null.  In a configuration, read with
      [config.get(k, default)], [None] stands for an absent key: the
      configuration dicts are those of the documented format
      [{"enabled": bool, "mappings": [...]}], whose keys hold a value of
      their type when present;
    - truthiness ([if x:] / [if not x:]) is written out: an absent or null
      value, [0] and the empty list are false;
    - [raise] is the [Raise] constructor of [Outcome];
    - the SQLAlchemy session is a pair of database states: the view of the
      open transaction and the committed state. *)

From Stdlib Require Import ZArith QArith List String Ascii Bool Lia Permutation Sorted.
Import ListNotations.

Open Scope string_scope.
Open Scope Z_scope.

(** ** Exceptions and outcomes *)

(** The three tables, used to say what a [NotFoundError] is about. *)
Inductive Entity : Type :=
| FactorDefinitionEntity
| FactorModelEntity
| FactorConfigEntity.

(** The [ValueError]s raised by the service, one per message:
    - [NameExists]: "因子名称 ... 已存在";
    - [MissingModelId]: "每个映射必须指定 model_id";
    - [SeveralDefaults]: "只能有一个默认配置（codes为空或None）" (the
      deprecated batch update words it "只能有一个默认配置（codes为空）");
    - [ConfigExists]: "因子配置 ... 已存在，请使用更新接口". *)
Inductive ValueReason : Type :=
| NameExists
| MissingModelId
| SeveralDefaults
| ConfigExists (factor_id : Z).

(** The exceptions: [NotFoundError] and [ValueError] are raised by the
    service itself, [AttributeError] by an attribute access on [None], and
    [IntegrityError] by SQLAlchemy when the database refuses a statement. *)
Inductive Exn : Type :=
| NotFoundError (what : Entity) (key : Z)
| ValueError (why : ValueReason)
| AttributeError
| IntegrityError.

Inductive Outcome (A : Type) : Type :=
| Return (a : A)
| Raise (e : Exn).

Arguments Return {A} a.
Arguments Raise {A} e.

Definition obind {A B : Type} (o : Outcome A) (k : A -> Outcome B) : Outcome B :=
  match o with
  | Return a => k a
  | Raise e => Raise e
  end.

Declare Scope outcome_scope.
Delimit Scope outcome_scope with outcome.
Notation "x <- c ;; k" := (obind c (fun x => k))
  (at level 61, c at next level, right associativity) : outcome_scope.

(** ** Data model *)

(** One entry of the ["mappings"] list of a configuration dict. *)
Record Mapping : Type := {
  model_id : option Z;
  codes : option (list string)
}.

(** The configuration dict
    [{"enabled": bool, "mappings": [{"model_id": int, "codes": [...]}]}]. *)
Record Config : Type := {
  enabled : option bool;
  mappings : option (list Mapping)
}.

Definition empty_config : Config := {| enabled := None; mappings := None |}.

(** Row of [zq_quant_factor_definitions].  [fd_factor_config] is no column
    of the table: it holds what the methods [set_factor_config] and
    [get_factor_config] of the ORM class write and read. *)
Record FactorDefinition : Type := {
  fd_id : Z;
  fd_factor_name : string;
  fd_cn_name : string;
  fd_column_name : string;
  fd_enabled : bool;
  fd_factor_config : Config
}.

(** Row of [zq_quant_factor_models]. *)
Record FactorModel : Type := {
  fm_id : Z;
  fm_factor_id : Z;
  fm_model_name : string;
  fm_model_code : string;
  fm_config_json : string;
  fm_is_default : bool;
  fm_enabled : bool
}.

(** Row of [zq_quant_factor_configs].  The ORM class is used by the service
    with the attributes of both generations of the table: [model_id] and the
    codes list (deprecated row-per-mapping layout) and the JSON [config]
    (layout keyed by [factor_id]). *)
Record FactorConfig : Type := {
  fc_factor_id : Z;
  fc_model_id : option Z;
  fc_codes_list : list string;
  fc_enabled : bool;
  fc_config : Config;
  fc_created_by : option string;
  fc_updated_by : option string
}.

Record Database : Type := {
  definitions : list FactorDefinition;
  models : list FactorModel;
  configs : list FactorConfig
}.

(** ** Python truthiness *)

(** [if codes:] for a [list | None]. *)
Definition truthy_codes (o : option (list string)) : bool :=
  match o with
  | Some (_ :: _) => true
  | _ => false
  end.

(** [code in codes] on a list of strings. *)
Definition code_in (code : string) (l : list string) : bool :=
  existsb (String.eqb code) l.

(** [config.get("enabled", True)]: the default stands in for an absent
    key. *)
Definition get_enabled (config : Config) : bool :=
  match enabled config with
  | Some b => b
  | None => true
  end.

(** [config.get("mappings", [])]: the default stands in for an absent
    key. *)
Definition get_mappings (config : Config) : list Mapping :=
  match mappings config with
  | Some l => l
  | None => []
  end.

(** ** Queries *)

Section Queries.

Variable db : Database.

(** [db.query(FactorDefinition).filter(id == factor_id).first()], raising
    when there is no row. *)
Definition get_factor_definition (factor_id : Z) : Outcome FactorDefinition :=
  match find (fun d => fd_id d =? factor_id) (definitions db) with
  | Some factor_def => Return factor_def
  | None => Raise (NotFoundError FactorDefinitionEntity factor_id)
  end.

Definition get_factor_model (model_id : Z) : Outcome FactorModel :=
  match find (fun m => fm_id m =? model_id) (models db) with
  | Some model => Return model
  | None => Raise (NotFoundError FactorModelEntity model_id)
  end.

Definition get_default_factor_model (factor_id : Z) : option FactorModel :=
  find (fun m => (fm_factor_id m =? factor_id) && fm_is_default m && fm_enabled m)
       (models db).

Definition get_factor_config_by_factor_id (factor_id : Z) : Outcome FactorConfig :=
  match find (fun c => fc_factor_id c =? factor_id) (configs db) with
  | Some config => Return config
  | None => Raise (NotFoundError FactorConfigEntity factor_id)
  end.

(** The relationship attribute [factor_def.config]: the configuration row of
    the factor, [None] when the factor has none. *)
Definition config_of (factor_def : FactorDefinition) : option FactorConfig :=
  find (fun c => fc_factor_id c =? fd_id factor_def) (configs db).

(** [factor_def.config.get_config()]; on [None] the attribute access fails. *)
Definition get_config (factor_def : FactorDefinition) : Outcome Config :=
  match config_of factor_def with
  | Some row => Return (fc_config row)
  | None => Raise AttributeError
  end.

(** The loop condition of the first scan: [codes and code in codes]. *)
Definition specific_for (code : string) (mapping : Mapping) : bool :=
  match codes mapping with
  | Some l => truthy_codes (Some l) && code_in code l
  | None => false
  end.

(** The loop condition of the second scan: [not codes]. *)
Definition is_default_mapping (mapping : Mapping) : bool :=
  negb (truthy_codes (codes mapping)).

(** The body shared by both scans once a mapping is selected.  [if model_id:]
    is false for an absent or null [model_id] and for [0]. *)
Definition model_of_mapping (factor_id : Z) (mapping : Mapping)
  : Outcome (option FactorModel) :=
  match model_id mapping with
  | Some mid =>
      if negb (mid =? 0)
      then (model <- get_factor_model mid ;; Return (Some model))%outcome
      else Return (get_default_factor_model factor_id)
  | None => Return (get_default_factor_model factor_id)
  end.

(** [FactorService.get_model_for_code].  Each [for ... : if ... : return]
    loop is a [find] on the list of mappings. *)
Definition get_model_for_code (factor_id : Z) (code : string)
  : Outcome (option FactorModel) :=
  (factor_def <- get_factor_definition factor_id ;;
   config <- get_config factor_def ;;
   if negb (get_enabled config) then Return None
   else
     let mappings := get_mappings config in
     match find (specific_for code) mappings with
     | Some mapping => model_of_mapping factor_id mapping
     | None =>
         match find is_default_mapping mappings with
         | Some mapping => model_of_mapping factor_id mapping
         | None => Return (get_default_factor_model factor_id)
         end
     end)%outcome.

End Queries.

(** ** The session and the writing operations *)

(** A SQLAlchemy session: [working] is the database as seen inside the open
    transaction (every query, bulk [update]/[delete] and flushed object acts
    on it), [stored] is the committed database.  [db.commit()] makes the
    working state the stored one; the service never calls [rollback], and a
    transaction is rolled back only when the database refuses its commit. *)
Record Session : Type := {
  working : Database;
  stored : Database
}.

Definition M (A : Type) : Type := Session -> Outcome A * Session.

Definition ret {A : Type} (a : A) : M A := fun s => (Return a, s).

Definition raise {A : Type} (e : Exn) : M A := fun s => (Raise e, s).

Definition bind {A B : Type} (m : M A) (k : A -> M B) : M B :=
  fun s =>
    match m s with
    | (Return a, s') => k a s'
    | (Raise e, s') => (Raise e, s')
    end.

Declare Scope session_scope.
Delimit Scope session_scope with session.
Notation "x <- c ;; k" := (bind c (fun x => k))
  (at level 61, c at next level, right associativity) : session_scope.
Notation "c ;; k" := (bind c (fun _ => k))
  (at level 61, right associativity) : session_scope.

(** Run a query against the transaction's view. *)
Definition query {A : Type} (q : Database -> Outcome A) : M A :=
  fun s => (q (working s), s).

(** Change the transaction's view (bulk statement or flushed object). *)
Definition modify (f : Database -> Database) : M unit :=
  fun s => (Return tt, {| working := f (working s); stored := stored s |}).

(** [db.commit()]. *)
Definition commit : M unit :=
  fun s => (Return tt, {| working := working s; stored := working s |}).

Definition set_models (f : list FactorModel -> list FactorModel) (db : Database)
  : Database :=
  {| definitions := definitions db; models := f (models db); configs := configs db |}.

Definition set_configs (f : list FactorConfig -> list FactorConfig) (db : Database)
  : Database :=
  {| definitions := definitions db; models := models db; configs := f (configs db) |}.

Definition set_definitions (f : list FactorDefinition -> list FactorDefinition)
  (db : Database) : Database :=
  {| definitions := f (definitions db); models := models db; configs := configs db |}.

(** Apply [f] to the first row selected by [p]: the row an ORM object fetched
    with [.first()] stands for. *)
Fixpoint update_first {A : Type} (p : A -> bool) (f : A -> A) (l : list A) : list A :=
  match l with
  | [] => []
  | x :: r => if p x then f x :: r else x :: update_first p f r
  end.

(** *** Factor models *)

Definition with_is_default (b : bool) (m : FactorModel) : FactorModel :=
  {| fm_id := fm_id m; fm_factor_id := fm_factor_id m;
     fm_model_name := fm_model_name m; fm_model_code := fm_model_code m;
     fm_config_json := fm_config_json m; fm_is_default := b;
     fm_enabled := fm_enabled m |}.

Definition with_model_name (n : string) (m : FactorModel) : FactorModel :=
  {| fm_id := fm_id m; fm_factor_id := fm_factor_id m;
     fm_model_name := n; fm_model_code := fm_model_code m;
     fm_config_json := fm_config_json m; fm_is_default := fm_is_default m;
     fm_enabled := fm_enabled m |}.

Definition with_model_code (c : string) (m : FactorModel) : FactorModel :=
  {| fm_id := fm_id m; fm_factor_id := fm_factor_id m;
     fm_model_name := fm_model_name m; fm_model_code := c;
     fm_config_json := fm_config_json m; fm_is_default := fm_is_default m;
     fm_enabled := fm_enabled m |}.

Definition with_config_json (j : string) (m : FactorModel) : FactorModel :=
  {| fm_id := fm_id m; fm_factor_id := fm_factor_id m;
     fm_model_name := fm_model_name m; fm_model_code := fm_model_code m;
     fm_config_json := j; fm_is_default := fm_is_default m;
     fm_enabled := fm_enabled m |}.

Definition with_model_enabled (b : bool) (m : FactorModel) : FactorModel :=
  {| fm_id := fm_id m; fm_factor_id := fm_factor_id m;
     fm_model_name := fm_model_name m; fm_model_code := fm_model_code m;
     fm_config_json := fm_config_json m; fm_is_default := fm_is_default m;
     fm_enabled := b |}.

(** [db.query(FactorModel).filter(factor_id == f, is_default == True)
       .update({"is_default": False})]. *)
Definition clear_defaults (factor_id : Z) (l : list FactorModel) : list FactorModel :=
  map (fun m => if (fm_factor_id m =? factor_id) && fm_is_default m
                then with_is_default false m else m) l.

(** The AUTO_INCREMENT key given to a new model row. *)
Definition next_model_id (l : list FactorModel) : Z :=
  1 + fold_right Z.max 0 (map fm_id l).

(** [x or d] on an optional argument whose values are all truthy. *)
Definition or_default {A : Type} (o : option A) (d : A) : A :=
  match o with
  | Some a => a
  | None => d
  end.

(** [if x is not None: ...] around a change of the session. *)
Definition when_given {A : Type} (o : option A) (k : A -> M unit) : M unit :=
  match o with
  | Some a => k a
  | None => ret tt
  end.

Definition create_factor_model (factor_id : Z) (model_name model_code : string)
  (config_json : option string) (is_default enabled : bool) : M FactorModel :=
  (_ <- query (fun db => get_factor_definition db factor_id) ;;
   (if is_default then modify (set_models (clear_defaults factor_id)) else ret tt) ;;
   id <- query (fun db => Return (next_model_id (models db))) ;;
   let model :=
     {| fm_id := id; fm_factor_id := factor_id;
        fm_model_name := model_name; fm_model_code := model_code;
        fm_config_json := or_default config_json "{}";
        fm_is_default := is_default; fm_enabled := enabled |} in
   modify (set_models (fun l => (l ++ [model])%list)) ;;
   commit ;;
   ret model)%session.

(** Assignment to an attribute of the ORM object [model]. *)
Definition assign_model (model : FactorModel) (f : FactorModel -> FactorModel) : M unit :=
  modify (set_models (update_first (fun m => fm_id m =? fm_id model) f)).

Definition update_factor_model (model_id : Z) (model_name model_code : option string)
  (config_json : option string) (is_default enabled : option bool) : M FactorModel :=
  (model <- query (fun db => get_factor_model db model_id) ;;
   when_given model_name (fun n => assign_model model (with_model_name n)) ;;
   when_given model_code (fun c => assign_model model (with_model_code c)) ;;
   when_given config_json (fun j => assign_model model (with_config_json j)) ;;
   when_given enabled (fun b => assign_model model (with_model_enabled b)) ;;
   when_given is_default (fun b =>
     (if b then modify (set_models (clear_defaults (fm_factor_id model))) else ret tt) ;;
     assign_model model (with_is_default b)) ;;
   commit ;;
   query (fun db => get_factor_model db model_id))%session.

Definition delete_factor_model (model_id : Z) : M bool :=
  (model <- query (fun db => get_factor_model db model_id) ;;
   modify (set_models (filter (fun m => negb (fm_id m =? fm_id model)))) ;;
   commit ;;
   ret true)%session.

(** *** Factor configurations *)

(** The class body defines [create_factor_config], [get_factor_config] and
    [update_factor_config] twice; the later definition is the one bound in
    the class, and the one embedded here. *)

(** The validation loop
    [for mapping in mappings: model_id = mapping.get("model_id");
       if not model_id: raise ValueError(...);
       FactorService.get_factor_model(db, model_id)]. *)
Fixpoint check_models (db : Database) (mappings : list Mapping) : Outcome unit :=
  match mappings with
  | [] => Return tt
  | mapping :: rest =>
      match model_id mapping with
      | Some mid =>
          if negb (mid =? 0)
          then (_ <- get_factor_model db mid ;; check_models db rest)%outcome
          else Raise (ValueError MissingModelId)
      | None => Raise (ValueError MissingModelId)
      end
  end.

(** [sum(1 for m in mappings if not m.get("codes"))]. *)
Definition default_count (mappings : list Mapping) : Z :=
  Z.of_nat (List.length (filter is_default_mapping mappings)).

(** The validation block that opens every configuration write: the loop over
    the model ids, then the test [default_count > 1]. *)
Definition validate_mappings (db : Database) (mappings : list Mapping) : Outcome unit :=
  (_ <- check_models db mappings ;;
   if default_count mappings >? 1
   then Raise (ValueError SeveralDefaults)
   else Return tt)%outcome.

Definition with_config (c : Config) (updated_by : option string) (row : FactorConfig)
  : FactorConfig :=
  {| fc_factor_id := fc_factor_id row; fc_model_id := fc_model_id row;
     fc_codes_list := fc_codes_list row; fc_enabled := fc_enabled row;
     fc_config := c; fc_created_by := fc_created_by row;
     fc_updated_by := match updated_by with
                      | Some u => Some u
                      | None => fc_updated_by row
                      end |}.

Definition with_config_enabled (b : bool) (row : FactorConfig) : FactorConfig :=
  {| fc_factor_id := fc_factor_id row; fc_model_id := fc_model_id row;
     fc_codes_list := fc_codes_list row; fc_enabled := b;
     fc_config := fc_config row; fc_created_by := fc_created_by row;
     fc_updated_by := fc_updated_by row |}.

(** Modelled from the spec: [FactorDefinition.set_factor_config] belongs to
    [zquant/models/factor.py], which is not among the sources.  The
    configuration it is given is kept with the definition it is called on, in
    [fd_factor_config], a field that stands for wherever the missing method
    keeps it; [get_factor_config] below reads it back. *)
Definition with_factor_config (c : Config) (d : FactorDefinition) : FactorDefinition :=
  {| fd_id := fd_id d; fd_factor_name := fd_factor_name d;
     fd_cn_name := fd_cn_name d; fd_column_name := fd_column_name d;
     fd_enabled := fd_enabled d; fd_factor_config := c |}.

Definition create_factor_config (factor_id : Z) (config : Config)
  (created_by : option string) : M FactorConfig :=
  (_ <- query (fun db => get_factor_definition db factor_id) ;;
   existing <- query (fun db =>
     Return (find (fun c => fc_factor_id c =? factor_id) (configs db))) ;;
   match existing with
   | Some _ => raise (ValueError (ConfigExists factor_id))
   | None =>
       _ <- query (fun db => validate_mappings db (get_mappings config)) ;;
       let factor_config :=
         {| fc_factor_id := factor_id; fc_model_id := None; fc_codes_list := [];
            fc_enabled := true; fc_config := config;
            fc_created_by := created_by; fc_updated_by := created_by |} in
       modify (set_configs (fun l => (l ++ [factor_config])%list)) ;;
       commit ;;
       ret factor_config
   end)%session.

Definition update_factor_config (factor_id : Z) (factor_config : Config)
  : M FactorDefinition :=
  (factor_def <- query (fun db => get_factor_definition db factor_id) ;;
   _ <- query (fun db => validate_mappings db (get_mappings factor_config)) ;;
   modify (set_definitions
     (update_first (fun d => fd_id d =? fd_id factor_def)
                   (with_factor_config factor_config))) ;;
   commit ;;
   ret (with_factor_config factor_config factor_def))%session.

Definition update_factor_config_by_factor_id (factor_id : Z) (config : Config)
  (updated_by : option string) : M FactorConfig :=
  (factor_config <- query (fun db => get_factor_config_by_factor_id db factor_id) ;;
   _ <- query (fun db => validate_mappings db (get_mappings config)) ;;
   modify (set_configs
     (update_first (fun c => fc_factor_id c =? fc_factor_id factor_config)
                   (with_config config updated_by))) ;;
   commit ;;
   ret (with_config config updated_by factor_config))%session.

(** One row per mapping, as built by the deprecated batch update:
    [FactorConfig(factor_id, model_id=mapping["model_id"],
                  enabled=enabled if enabled is not None else True)]
    followed by [set_codes_list(codes if codes else [])]. *)
Definition config_row_of_mapping (factor_id : Z) (enabled : option bool)
  (mapping : Mapping) : FactorConfig :=
  {| fc_factor_id := factor_id; fc_model_id := model_id mapping;
     fc_codes_list := (if truthy_codes (codes mapping)
                       then or_default (codes mapping) [] else []);
     fc_enabled := or_default enabled true;
     fc_config := empty_config;
     fc_created_by := None; fc_updated_by := None |}.

(** [db.commit()] with new rows of [factor_id] pending.  [factor_id] is the
    primary key of [zq_quant_factor_configs] ([scripts/init_factor.py]): the
    database takes one row per factor and refuses a second one, so that the
    commit raises [IntegrityError] and the transaction is rolled back. *)
Definition commit_rows_of (factor_id : Z) : M unit :=
  fun s =>
    if Z.of_nat (List.length (filter (fun c => fc_factor_id c =? factor_id)
                                (configs (working s)))) <=? 1
    then commit s
    else (Raise IntegrityError, {| working := stored s; stored := stored s |}).

(** [update_factor_config_with_mappings] (deprecated).  The bulk [update] of
    [enabled] and the bulk [delete] of the factor's rows are issued before the
    mappings are validated, in the order of the source. *)
Definition update_factor_config_with_mappings (factor_id : Z)
  (mappings : option (list Mapping)) (enabled : option bool) : M (list FactorConfig) :=
  (_ <- query (fun db => get_factor_definition db factor_id) ;;
   when_given enabled (fun b =>
     modify (set_configs
       (map (fun c => if fc_factor_id c =? factor_id
                      then with_config_enabled b c else c)))) ;;
   match mappings with
   | Some ms =>
       modify (set_configs (filter (fun c => negb (fc_factor_id c =? factor_id)))) ;;
       _ <- query (fun db => validate_mappings db ms) ;;
       let created_configs := map (config_row_of_mapping factor_id enabled) ms in
       modify (set_configs (fun l => (l ++ created_configs)%list)) ;;
       commit_rows_of factor_id ;;
       ret created_configs
   | None =>
       commit ;;
       query (fun db =>
         Return (filter (fun c => fc_factor_id c =? factor_id) (configs db)))
   end)%session.

(** *** Factor definitions *)

(** The row record keeps the columns the service reads back; [en_name] and
    [description] are accepted and stored by the source without being read
    again, and have no field here. *)

Definition with_cn_name (n : string) (d : FactorDefinition) : FactorDefinition :=
  {| fd_id := fd_id d; fd_factor_name := fd_factor_name d;
     fd_cn_name := n; fd_column_name := fd_column_name d;
     fd_enabled := fd_enabled d; fd_factor_config := fd_factor_config d |}.

Definition with_column_name (c : string) (d : FactorDefinition) : FactorDefinition :=
  {| fd_id := fd_id d; fd_factor_name := fd_factor_name d;
     fd_cn_name := fd_cn_name d; fd_column_name := c;
     fd_enabled := fd_enabled d; fd_factor_config := fd_factor_config d |}.

Definition with_definition_enabled (b : bool) (d : FactorDefinition) : FactorDefinition :=
  {| fd_id := fd_id d; fd_factor_name := fd_factor_name d;
     fd_cn_name := fd_cn_name d; fd_column_name := fd_column_name d;
     fd_enabled := b; fd_factor_config := fd_factor_config d |}.

(** The AUTO_INCREMENT key given to a new definition row. *)
Definition next_definition_id (l : list FactorDefinition) : Z :=
  1 + fold_right Z.max 0 (map fd_id l).

Definition get_factor_definition_by_name (db : Database) (factor_name : string)
  : option FactorDefinition :=
  find (fun d => String.eqb (fd_factor_name d) factor_name) (definitions db).

(** [if not column_name: column_name = factor_name]: an absent and an empty
    column name both give way to the factor name. *)
Definition column_or_name (column_name : option string) (factor_name : string) : string :=
  match column_name with
  | Some c => if String.eqb c "" then factor_name else c
  | None => factor_name
  end.

Definition create_factor_definition (factor_name cn_name : string)
  (en_name column_name description : option string) (enabled : bool)
  (factor_config : option Config) : M FactorDefinition :=
  (existing <- query (fun db => Return (get_factor_definition_by_name db factor_name)) ;;
   match existing with
   | Some _ => raise (ValueError NameExists)
   | None =>
       id <- query (fun db => Return (next_definition_id (definitions db))) ;;
       let factor_def :=
         {| fd_id := id; fd_factor_name := factor_name; fd_cn_name := cn_name;
            fd_column_name := column_or_name column_name factor_name;
            fd_enabled := enabled;
            fd_factor_config := or_default factor_config empty_config |} in
       modify (set_definitions (fun l => (l ++ [factor_def])%list)) ;;
       commit ;;
       ret factor_def
   end)%session.

(** Assignment to an attribute of the ORM object [factor_def]. *)
Definition assign_definition (factor_def : FactorDefinition)
  (f : FactorDefinition -> FactorDefinition) : M unit :=
  modify (set_definitions (update_first (fun d => fd_id d =? fd_id factor_def) f)).

Definition update_factor_definition (factor_id : Z)
  (cn_name en_name column_name description : option string)
  (enabled : option bool) (factor_config : option Config) : M FactorDefinition :=
  (factor_def <- query (fun db => get_factor_definition db factor_id) ;;
   when_given cn_name (fun n => assign_definition factor_def (with_cn_name n)) ;;
   when_given column_name (fun c => assign_definition factor_def (with_column_name c)) ;;
   when_given enabled (fun b => assign_definition factor_def (with_definition_enabled b)) ;;
   when_given factor_config (fun c => assign_definition factor_def (with_factor_config c)) ;;
   commit ;;
   query (fun db => get_factor_definition db factor_id))%session.

(** *** Reading and deleting configurations *)

(** [get_factor_config] (the later definition of the class).  Its
    [factor_def.get_factor_config()] is a method of the missing model class,
    the counterpart of [set_factor_config]: it answers what
    [fd_factor_config] holds. *)
Definition get_factor_config (db : Database) (factor_id : Z) : Outcome Config :=
  (factor_def <- get_factor_definition db factor_id ;;
   Return (fd_factor_config factor_def))%outcome.

(** [delete_factor_config_by_factor_id]; the row is deleted by its primary
    key, which is [factor_id] in [zq_quant_factor_configs]. *)
Definition delete_factor_config_by_factor_id (factor_id : Z) : M bool :=
  (factor_config <- query (fun db => get_factor_config_by_factor_id db factor_id) ;;
   modify (set_configs
     (filter (fun c => negb (fc_factor_id c =? fc_factor_id factor_config)))) ;;
   commit ;;
   ret true)%session.

(** * The configuration endpoints ([zquant/api/v1/factor.py]) *)

(** The service operations under the name of their class, as the endpoints
    call them. *)
Module FactorService.

Definition get_factor_definition := get_factor_definition.
Definition get_factor_config := get_factor_config.
Definition get_factor_config_by_factor_id := get_factor_config_by_factor_id.
Definition update_factor_config := update_factor_config.
Definition update_factor_config_by_factor_id := update_factor_config_by_factor_id.
Definition delete_factor_config_by_factor_id := delete_factor_config_by_factor_id.

End FactorService.

Module Api.

(** What an endpoint answers: a value, or an [HTTPException] with its status
    code and the exception it reports. *)
Inductive Reply (A : Type) : Type :=
| Ok (a : A)
| HTTPException (status_code : Z) (detail : option Exn).

Arguments Ok {A} a.
Arguments HTTPException {A} status_code detail.

Definition Endpoint (A : Type) : Type := Session -> Reply A * Session.

(** [try: body except NotFoundError: handler]. *)
Definition except_not_found {A : Type} (body handler : M A) : M A :=
  fun s =>
    match body s with
    | (Raise (NotFoundError _ _), s') => handler s'
    | r => r
    end.

(** The [except] clauses that close an endpoint:
    [NotFoundError] is a 404, [ValueError] a 400, anything else a 500. *)
Definition status_of (e : Exn) : Z :=
  match e with
  | NotFoundError _ _ => 404
  | ValueError _ => 400
  | AttributeError => 500
  | IntegrityError => 500
  end.

(** The clauses of the endpoints that have no [except ValueError]. *)
Definition status_without_400 (e : Exn) : Z :=
  match e with
  | NotFoundError _ _ => 404
  | _ => 500
  end.

Definition respond {A : Type} (status : Exn -> Z) (body : M A) : Endpoint A :=
  fun s =>
    match body s with
    | (Return a, s') => (Ok a, s')
    | (Raise e, s') => (HTTPException (status e) (Some e), s')
    end.

(** [if not is_admin(current_user, db): raise HTTPException(403)];
    [admin] is the answer of [is_admin]. *)
Definition requires_admin {A : Type} (admin : bool) (k : Endpoint A) : Endpoint A :=
  fun s => if admin then k s else (HTTPException 403 None, s).

(** [GET /definitions/{factor_id}/config] (deprecated). *)
Definition get_factor_config (factor_id : Z) : Endpoint Config :=
  respond status_without_400
    (except_not_found
       (config_obj <- query (fun db =>
          FactorService.get_factor_config_by_factor_id db factor_id) ;;
        ret (fc_config config_obj))
       (query (fun db => FactorService.get_factor_config db factor_id)))%session.

(** [PUT /definitions/{factor_id}/config] (deprecated): the new table
    first, the configuration of the definition row when the new table has
    nothing. *)
Definition update_factor_config (admin : bool) (username : string) (factor_id : Z)
  (factor_config : Config) : Endpoint Config :=
  requires_admin admin
    (respond status_of
       (except_not_found
          (_ <- query (fun db =>
             FactorService.get_factor_config_by_factor_id db factor_id) ;;
           config_obj <- FactorService.update_factor_config_by_factor_id
                           factor_id factor_config (Some username) ;;
           ret (fc_config config_obj))
          (factor_def <- FactorService.update_factor_config factor_id factor_config ;;
           ret (fd_factor_config factor_def))))%session.

(** [DELETE /definitions/{factor_id}/config] (deprecated); the answer is
    the status code of the empty response. *)
Definition delete_factor_config (admin : bool) (factor_id : Z) : Endpoint Z :=
  requires_admin admin
    (respond status_without_400
       (except_not_found
          (_ <- FactorService.delete_factor_config_by_factor_id factor_id ;; ret tt)
          (factor_def <- query (fun db =>
             FactorService.get_factor_definition db factor_id) ;;
           assign_definition factor_def (with_factor_config empty_config) ;;
           commit) ;;
        ret 204))%session.

(** The body of a [FactorConfigUpdate]: both parts are optional. *)
Record FactorConfigUpdate : Type := {
  update_mappings : option (list Mapping);
  update_enabled : option bool
}.

(** The grouped answer of the deprecated endpoints, without the time stamps
    of the rows. *)
Record FactorConfigGrouped : Type := {
  grouped_factor_id : Z;
  grouped_enabled : bool;
  grouped_mappings : list Mapping
}.

(** [PUT /configs/by-factor/{factor_id}] (deprecated): the parts of the
    body that are given replace those of the current configuration. *)
Definition update_factor_config_by_factor (admin : bool) (factor_id : Z)
  (config_data : FactorConfigUpdate) : Endpoint FactorConfigGrouped :=
  requires_admin admin
    (respond status_of
       (current_config <- query (fun db =>
          FactorService.get_factor_config db factor_id) ;;
        let current_config :=
          match update_mappings config_data with
          | Some ms => {| enabled := enabled current_config; mappings := Some ms |}
          | None => current_config
          end in
        let current_config :=
          match update_enabled config_data with
          | Some b => {| enabled := Some b; mappings := mappings current_config |}
          | None => current_config
          end in
        factor_def <- FactorService.update_factor_config factor_id current_config ;;
        let config := fd_factor_config factor_def in
        ret {| grouped_factor_id := factor_id;
               grouped_enabled := get_enabled config;
               grouped_mappings := get_mappings config |}))%session.

(** [GET /configs/grouped]: the rows, grouped by factor in the order in
    which the factors first appear (a [dict] keeps insertion order). *)
Fixpoint add_to_group (config : FactorConfig) (grouped : list (Z * list FactorConfig))
  : list (Z * list FactorConfig) :=
  match grouped with
  | [] => [(fc_factor_id config, [config])]
  | (factor_id, configs) :: rest =>
      if factor_id =? fc_factor_id config
      then (factor_id, (configs ++ [config])%list) :: rest
      else (factor_id, configs) :: add_to_group config rest
  end.

Definition group_by_factor (all_configs : list FactorConfig)
  : list (Z * list FactorConfig) :=
  fold_left (fun grouped config => add_to_group config grouped) all_configs [].

(** One item per group that is not empty: the factor, the [enabled] of its
    first row, and its rows. *)
Definition grouped_items (all_configs : list FactorConfig)
  : list (Z * bool * list FactorConfig) :=
  flat_map (fun g =>
              match snd g with
              | [] => []
              | first :: _ => [(fst g, fc_enabled first, snd g)]
              end)
           (group_by_factor all_configs).

End Api.

(** * The repository ([zquant/repositories/factor_repository.py]) *)

Module FactorRepository.

(** [code.split(".")[0]]: what stands before the first dot. *)
Fixpoint before_dot (code : string) : string :=
  match code with
  | EmptyString => EmptyString
  | String c rest =>
      if Ascii.eqb c "."%char then EmptyString else String c (before_dot rest)
  end.

(** ["." in code]. *)
Fixpoint has_dot (code : string) : bool :=
  match code with
  | EmptyString => false
  | String c rest => Ascii.eqb c "."%char || has_dot rest
  end.

(** The table [get_factor_results] reads:
    [code_num = code.split(".")[0] if "." in code else code] and
    [f"zq_quant_factor_spacex_{code_num}"]. *)
Definition code_num (code : string) : string :=
  if has_dot code then before_dot code else code.

Definition table_name (code : string) : string :=
  "zq_quant_factor_spacex_" ++ code_num code.

End FactorRepository.

(** * The query builder ([zquant/utils/query_builder.py]) *)

Module QueryBuilder.

Section Builder.

(** The rows of the model class and the columns one can order by. *)
Variables T F : Type.

(** The wrapped SQLAlchemy query, as far as the builder drives it: what the
    database answers for a given [ORDER BY] list (filters included), the
    [ORDER BY] list, and the [LIMIT] and [OFFSET] when set. *)
Record Builder : Type := {
  answer : list F -> list T;
  ordering : list F;
  limit_of : option Z;
  offset_of : option Z
}.

(** [QueryBuilder(db, model_class)]: nothing ordered, limited or skipped. *)
Definition fresh (answer : list F -> list T) : Builder :=
  {| answer := answer; ordering := []; limit_of := None; offset_of := None |}.

Inductive BuilderError : Type :=
| TypeError.

(** [order_by] with its fields and [desc=False] by default.  Inside the method the name [desc] is
    the boolean parameter, not the imported function: [desc(f)] calls a
    boolean. *)
Definition order_by (fields : list F) (desc : bool) (b : Builder)
  : Builder + BuilderError :=
  match fields with
  | [] => inl b
  | _ :: _ =>
      if desc then inr TypeError
      else inl {| answer := answer b; ordering := (ordering b ++ fields)%list;
                  limit_of := limit_of b; offset_of := offset_of b |}
  end.

(** [if limit and limit > 0: self._query = self._query.limit(limit)]. *)
Definition limit (n : Z) (b : Builder) : Builder :=
  if negb (n =? 0) && (n >? 0)
  then {| answer := answer b; ordering := ordering b;
          limit_of := Some n; offset_of := offset_of b |}
  else b.

(** [if offset and offset >= 0: self._query = self._query.offset(offset)]. *)
Definition offset (n : Z) (b : Builder) : Builder :=
  if negb (n =? 0) && (n >=? 0)
  then {| answer := answer b; ordering := ordering b;
          limit_of := limit_of b; offset_of := Some n |}
  else b.

Definition paginate (page page_size : Z) (b : Builder) : Builder :=
  let page := if page <? 1 then 1 else page in
  let page_size := if page_size <? 1 then 20 else page_size in
  let offset_ := (page - 1) * page_size in
  limit page_size (offset offset_ b).

(** [all()]: the ordered rows, after [OFFSET], up to [LIMIT]. *)
Definition all (b : Builder) : list T :=
  let rows := answer b (ordering b) in
  let rows := match offset_of b with
              | Some k => skipn (Z.to_nat k) rows
              | None => rows
              end in
  match limit_of b with
  | Some n => firstn (Z.to_nat n) rows
  | None => rows
  end.

(** [count()]. *)
Definition count (b : Builder) : Z := Z.of_nat (List.length (all b)).

End Builder.

Arguments answer {T F} b.
Arguments ordering {T F} b.
Arguments limit_of {T F} b.
Arguments offset_of {T F} b.
Arguments fresh {T F} answer.
Arguments order_by {T F} fields desc b.
Arguments limit {T F} n b.
Arguments offset {T F} n b.
Arguments paginate {T F} page page_size b.
Arguments all {T F} b.
Arguments count {T F} b.

End QueryBuilder.

(** * The factory of the synchronisation strategies
      ([zquant/services/sync_strategies/factory.py]) *)

Module SyncStrategyFactory.

Section Registry.

(** The strategy classes; those of the initial registry are defined in
    modules of their own. *)
Variable Strategy : Type.
Variables StockListSyncStrategy TradingCalendarSyncStrategy DailyDataSyncStrategy
  AllDailyDataSyncStrategy DailyBasicSyncStrategy : Strategy.

(** The class attribute [_strategies]: a [dict], which keeps the order in
    which its keys were first inserted. *)
Definition Registry : Type := list (string * Strategy).

Definition _strategies : Registry :=
  [("sync_stock_list", StockListSyncStrategy);
   ("sync_trading_calendar", TradingCalendarSyncStrategy);
   ("sync_daily_data", DailyDataSyncStrategy);
   ("sync_all_daily_data", AllDailyDataSyncStrategy);
   ("sync_daily_basic_data", DailyBasicSyncStrategy)].

(** [cls._strategies.get(task_action)]. *)
Fixpoint get (registry : Registry) (task_action : string) : option Strategy :=
  match registry with
  | [] => None
  | (k, v) :: rest => if String.eqb k task_action then Some v else get rest task_action
  end.

(** [list(cls._strategies.keys())]. *)
Definition get_supported_actions (registry : Registry) : list string :=
  map fst registry.

(** [', '.join(keys)]. *)
Fixpoint join (sep : string) (l : list string) : string :=
  match l with
  | [] => ""
  | [x] => x
  | x :: rest => x ++ sep ++ join sep rest
  end.

(** The class a [create_strategy] instantiates, or the message of the
    [ValueError] it raises. *)
Definition create_strategy (registry : Registry) (task_action : string)
  : Strategy + string :=
  match get registry task_action with
  | Some strategy_class => inl strategy_class
  | None =>
      inr ("不支持的任务动作: " ++ task_action ++ "。"
           ++ "支持的 action: " ++ join ", " (get_supported_actions registry))
  end.

(** [cls._strategies[task_action] = strategy_class]: the value of a key
    that is there is replaced in place, a new key goes last. *)
Fixpoint register_strategy (registry : Registry) (task_action : string)
  (strategy_class : Strategy) : Registry :=
  match registry with
  | [] => [(task_action, strategy_class)]
  | (k, v) :: rest =>
      if String.eqb k task_action then (k, strategy_class) :: rest
      else (k, v) :: register_strategy rest task_action strategy_class
  end.

End Registry.

Arguments get {Strategy} registry task_action.
Arguments get_supported_actions {Strategy} registry.
Arguments create_strategy {Strategy} registry task_action.
Arguments register_strategy {Strategy} registry task_action strategy_class.

End SyncStrategyFactory.

(** * The turnover-rate calculator

    [zquant/factor/calculators/turnover_rate.py] is exercised by
    [tests/unittest/test_turnover_rate_calculator.py] but is not part of the
    sources at hand; the definitions of this module follow the specification
    (section 4.2) and the tests.  Floating-point values are rendered as exact
    rationals, reduced to lowest terms. *)

Module TurnoverRate.

Open Scope Z_scope.

(** A calendar date, as its proleptic Gregorian ordinal
    ([date.toordinal()]: 0001-01-01 is day 1). *)
Definition Date : Type := Z.

(** The value stored under a field of an observation: JSON null, a number,
    or anything else (non-numeric). *)
Inductive Value : Type :=
| VNull
| VNum (q : Q)
| VText (s : string).

(** [trade_date] comes either as a date object or as text to be parsed. *)
Inductive RawDate : Type :=
| DateObject (d : Date)
| DateText (s : string).

Record Observation : Type := {
  trade_date : RawDate;
  values : list (string * Value)
}.

(** What the observation source answers: the rows, or a failure. *)
Inductive Fetch : Type :=
| Fetched (rows : list Observation)
| FetchFailed.

(** [fetch(code, startDate, endDate)]. *)
Definition Source : Type := string -> Date -> Date -> Fetch.

Record CalcConfig : Type := {
  source : string;
  field : string;
  method : option string;
  window : Z
}.

(** What may go wrong inside a calculation. *)
Inductive Failure : Type :=
| FetchError
| NotNumeric
| DivisionByZero.

Inductive Attempt (A : Type) : Type :=
| Done (a : A)
| Failed (f : Failure).

Arguments Done {A} a.
Arguments Failed {A} f.

(** *** ISO dates *)

Definition digit_of (c : ascii) : option Z :=
  let n := Z.of_nat (nat_of_ascii c) in
  if (48 <=? n) && (n <=? 57) then Some (n - 48) else None.

Fixpoint number_of (acc : Z) (cs : list ascii) : option Z :=
  match cs with
  | [] => Some acc
  | c :: rest =>
      match digit_of c with
      | Some d => number_of (10 * acc + d) rest
      | None => None
      end
  end.

Definition is_leap (y : Z) : bool :=
  ((y mod 4 =? 0) && negb (y mod 100 =? 0)) || (y mod 400 =? 0).

Definition days_in_month (y m : Z) : Z :=
  if m =? 2 then (if is_leap y then 29 else 28)
  else if (m =? 4) || (m =? 6) || (m =? 9) || (m =? 11) then 30
  else 31.

Definition days_before_year (y : Z) : Z :=
  let p := y - 1 in p * 365 + p / 4 - p / 100 + p / 400.

Fixpoint days_before_month (y : Z) (m : nat) : Z :=
  match m with
  | O => 0
  | S k => days_before_month y k + days_in_month y (Z.of_nat (S k))
  end.

Definition ordinal (y m d : Z) : Date :=
  days_before_year y + days_before_month y (Z.to_nat (m - 1)) + d.

(** Modelled from the spec: the parsing of a textual [trade_date], missing
    with the calculator; [YYYY-MM-DD], as in the tests, gives a date and
    anything else fails to parse ([None]). *)
Definition parse_iso (s : string) : option Date :=
  match list_ascii_of_string s with
  | [y1; y2; y3; y4; h1; m1; m2; h2; d1; d2] =>
      if Ascii.eqb h1 "-"%char && Ascii.eqb h2 "-"%char then
        match number_of 0 [y1; y2; y3; y4], number_of 0 [m1; m2], number_of 0 [d1; d2] with
        | Some y, Some m, Some d =>
            if (1 <=? y) && (1 <=? m) && (m <=? 12) && (1 <=? d) && (d <=? days_in_month y m)
            then Some (ordinal y m d)
            else None
        | _, _, _ => None
        end
      else None
  | _ => None
  end.

Definition date_of (r : RawDate) : option Date :=
  match r with
  | DateObject d => Some d
  | DateText s => parse_iso s
  end.

(** *** Observations *)

(** [item.get(field)]: an absent field reads as null. *)
Fixpoint get_field (name : string) (kvs : list (string * Value)) : Value :=
  match kvs with
  | [] => VNull
  | (k, v) :: rest => if String.eqb k name then v else get_field name rest
  end.

(** Modelled from the spec: the filter of the moving-average mode, missing
    with the calculator.  A valid observation is one whose field holds a
    number and whose date parses. *)
Definition valid_point (name : string) (o : Observation) : option (Date * Q) :=
  match get_field name (values o) with
  | VNum q =>
      match date_of (trade_date o) with
      | Some d => Some (d, q)
      | None => None
      end
  | _ => None
  end.

(** Modelled from the spec: the missing calculator's pass over the fetched
    rows; null, non-numeric and undated observations are dropped. *)
Fixpoint valid_points (name : string) (rows : list Observation) : list (Date * Q) :=
  match rows with
  | [] => []
  | o :: rest =>
      match valid_point name o with
      | Some p => p :: valid_points name rest
      | None => valid_points name rest
      end
  end.

(** Modelled from the spec: the order of the missing calculator's sort.
    Observations are sorted by date (section 4.2), and the result is
    independent of the order in which they arrive "due to sort-then-mean"
    (section 8): the place of an observation in the sorted sequence is a
    matter of the observation alone, so that two observations of one date
    stand in the order of their values, as [(trade_date, value)] pairs do. *)
Definition earlier (p x : Date * Q) : bool :=
  (fst p <? fst x)
  || ((fst p =? fst x)
      && match (snd p ?= snd x)%Q with
         | Lt => true
         | _ => false
         end).

(** Modelled from the spec: the missing calculator's sort by date,
    ascending, as an insertion sort. *)
Fixpoint insert_by_date (p : Date * Q) (l : list (Date * Q)) : list (Date * Q) :=
  match l with
  | [] => [p]
  | x :: rest =>
      if earlier p x then p :: x :: rest else x :: insert_by_date p rest
  end.

Definition sort_by_date (l : list (Date * Q)) : list (Date * Q) :=
  fold_left (fun acc p => insert_by_date p acc) l [].

(** The last [n] elements. *)
Definition tail_of {A : Type} (n : nat) (l : list A) : list A :=
  skipn (List.length l - n) l.

Definition total (l : list Q) : Q := fold_right Qplus 0%Q l.

(** Modelled from the spec: the arithmetic mean of the missing calculator;
    the mean of nothing divides by zero. *)
Definition mean (l : list Q) : Attempt Q :=
  match l with
  | [] => Failed DivisionByZero
  | _ :: _ => Done (Qred (total l / inject_Z (Z.of_nat (List.length l))))
  end.

(** *** Configuration validation *)

(** Modelled from the spec: the data origins the missing calculator
    recognises; the tests use [daily_basic]. *)
Definition supported_sources : list string := ["daily_basic"].

(** Modelled from the spec: the messages of the missing [validate_config],
    as the tests look for them. *)
Definition msg_source : string := "不支持的数据来源".
Definition msg_field : string := "字段名不能为空".
Definition msg_window_positive : string := "移动平均窗口大小必须是正整数".
Definition msg_window_too_large : string := "移动平均窗口大小不能超过60".

Definition is_ma (c : CalcConfig) : bool :=
  match method c with
  | Some m => String.eqb m "ma"
  | None => false
  end.

(** Modelled from the spec: [TurnoverRateCalculator.validate_config] is
    missing from the sources; the checks are those of section 4.2, in the
    order listed there, and the messages those the tests look for. *)
Definition validate_config (c : CalcConfig) : bool * string :=
  if negb (existsb (String.eqb (source c)) supported_sources) then (false, msg_source)
  else if String.eqb (field c) "" then (false, msg_field)
  else if is_ma c then
    if window c <=? 0 then (false, msg_window_positive)
    else if window c >? 60 then (false, msg_window_too_large)
    else (true, "")
  else (true, "").

(** *** Calculation *)

Section Calculate.

(** The observation source. *)
Variable fetch : Source.

(** The number of calendar days fetched for a window; the specification
    asks only for a span several times the window. *)
Variable lookback_days : Z -> Z.

(** Modelled from the spec: the raw mode of the missing calculator, the
    value of the field on the as-of date. *)
Definition calculate_raw (c : CalcConfig) (code : string) (as_of : Date)
  : Attempt (option Q) :=
  match fetch code as_of as_of with
  | FetchFailed => Failed FetchError
  | Fetched [] => Done None
  | Fetched (o :: _) =>
      match get_field (field c) (values o) with
      | VNull => Done None
      | VNum q => Done (Some (Qred q))
      | VText _ => Failed NotNumeric
      end
  end.

(** Modelled from the spec: the moving-average mode of the missing
    calculator. *)
Definition calculate_ma (c : CalcConfig) (code : string) (as_of : Date)
  : Attempt (option Q) :=
  match fetch code (as_of - lookback_days (window c)) as_of with
  | FetchFailed => Failed FetchError
  | Fetched rows =>
      let sorted := sort_by_date (valid_points (field c) rows) in
      if Z.of_nat (List.length sorted) <? window c then Done None
      else
        match mean (map snd (tail_of (Z.to_nat (window c)) sorted)) with
        | Done q => Done (Some q)
        | Failed f => Failed f
        end
  end.

(** Modelled from the spec: the missing calculator turns every failure into
    a null result ([try: ... except Exception: return None]). *)
Definition or_null (a : Attempt (option Q)) : Attempt (option Q) :=
  match a with
  | Done r => Done r
  | Failed _ => Done None
  end.

(** Modelled from the spec: [TurnoverRateCalculator.calculate] is missing
    from the sources; this follows the calculation semantics of section 4.2. *)
Definition calculate (c : CalcConfig) (code : string) (as_of : Date)
  : Attempt (option Q) :=
  or_null (if is_ma c then calculate_ma c code as_of else calculate_raw c code as_of).

End Calculate.

End TurnoverRate.

(** * Vocabulary of the properties *)

(** The mapping lists [code]: its [codes] is a list that contains it. *)
Definition code_listed (code : string) (mapping : Mapping) : Prop :=
  exists l, codes mapping = Some l /\ In code l.

(** The mapping is a default one: [codes] is absent, null or empty. *)
Definition codes_empty (mapping : Mapping) : Prop :=
  codes mapping = None \/ codes mapping = Some [].

(** The mapping names a model: it carries a non-zero [model_id] for which
    [get_factor_model] finds a row. *)
Definition names_model (db : Database) (mapping : Mapping) : Prop :=
  exists mid model,
    model_id mapping = Some mid /\ mid <> 0 /\ get_factor_model db mid = Return model.

(** The flag of a model row, for the factor [f]. *)
Definition is_default_of (f : Z) (m : FactorModel) : bool :=
  (fm_factor_id m =? f) && fm_is_default m.

(** The models of factor [f] that are marked [is_default]. *)
Definition default_models (l : list FactorModel) (f : Z) : list FactorModel :=
  filter (is_default_of f) l.

Definition one_default_per_factor (db : Database) : Prop :=
  forall f, (List.length (default_models (models db) f) <= 1)%nat.

(** The operations of the service that write factor models. *)
Inductive ModelOp : Type :=
| CreateModel (factor_id : Z) (model_name model_code : string)
    (config_json : option string) (is_default enabled : bool)
| UpdateModel (model_id : Z) (model_name model_code config_json : option string)
    (is_default enabled : option bool)
| DeleteModel (model_id : Z).

(** The session an operation leaves behind, whether it returns or raises. *)
Definition run_model_op (op : ModelOp) (s : Session) : Session :=
  match op with
  | CreateModel f n c j d e => snd (create_factor_model f n c j d e s)
  | UpdateModel k n c j d e => snd (update_factor_model k n c j d e s)
  | DeleteModel k => snd (delete_factor_model k s)
  end.

(** A change of a model row that keeps its key, its factor and its flag. *)
Definition neutral (g : FactorModel -> FactorModel) : Prop :=
  forall m, fm_id (g m) = fm_id m /\ fm_factor_id (g m) = fm_factor_id m
            /\ fm_is_default (g m) = fm_is_default m.

(** The rows of factor [f], in their order in the list. *)
Definition rows_of (f : Z) (l : list FactorConfig) : list FactorConfig :=
  filter (fun c => fc_factor_id c =? f) l.

(** The rows of the other factors. *)
Definition rows_besides (f : Z) (l : list FactorConfig) : list FactorConfig :=
  filter (fun c => negb (fc_factor_id c =? f)) l.

(** The row [new] is the row [old] in every column but [enabled]. *)
Definition same_but_enabled (old new : FactorConfig) : Prop :=
  fc_factor_id new = fc_factor_id old
  /\ fc_model_id new = fc_model_id old
  /\ fc_codes_list new = fc_codes_list old
  /\ fc_config new = fc_config old
  /\ fc_created_by new = fc_created_by old
  /\ fc_updated_by new = fc_updated_by old.

(** What a list of groups must be to be the grouping of [l]. *)
Definition groups_of (l : list FactorConfig) (G : list (Z * list FactorConfig)) : Prop :=
  NoDup (map fst G)
  /\ (forall f, In f (map fst G) <-> In f (map fc_factor_id l))
  /\ (forall f cs, In (f, cs) G -> cs = rows_of f l /\ cs <> []).

Module TurnoverRateProps.

Import TurnoverRate.

Open Scope Z_scope.

(** The source of the configuration is one the calculator recognises. *)
Definition recognised (c : CalcConfig) : Prop := In (source c) supported_sources.

(** The range asked of the observation source. *)
Definition fetched (fetch : Source) (lookback_days : Z -> Z) (c : CalcConfig)
  (code : string) (as_of : Date) : Fetch :=
  if is_ma c then fetch code (as_of - lookback_days (window c)) as_of
  else fetch code as_of as_of.


(** The same date and the same number, whatever fraction writes it. *)
Definition same_point (a b : Date * Q) : Prop := fst a = fst b /\ (snd a == snd b)%Q.


End TurnoverRateProps.

(** * Example data *)

Module Demo.

Definition turnover : FactorDefinition :=
  {| fd_id := 1; fd_factor_name := "turnover_rate"; fd_cn_name := "turnover";
     fd_column_name := "turnover_rate"; fd_enabled := true;
     fd_factor_config := empty_config |}.

Definition daily_model : FactorModel :=
  {| fm_id := 1; fm_factor_id := 1; fm_model_name := "daily";
     fm_model_code := "turnover_rate"; fm_config_json := "{}";
     fm_is_default := true; fm_enabled := true |}.

Definition ma_model : FactorModel :=
  {| fm_id := 2; fm_factor_id := 1; fm_model_name := "moving average";
     fm_model_code := "turnover_rate_ma"; fm_config_json := "{}";
     fm_is_default := false; fm_enabled := true |}.

Definition mapping_x : Mapping := {| model_id := Some 2; codes := Some ["X"] |}.
Definition mapping_xz : Mapping := {| model_id := Some 1; codes := Some ["X"; "Z"] |}.
Definition mapping_rest : Mapping := {| model_id := Some 1; codes := None |}.
Definition mapping_stale : Mapping := {| model_id := Some 999; codes := Some ["S"] |}.
Definition mapping_anonymous : Mapping := {| model_id := None; codes := Some ["X"] |}.

Definition row_of (c : Config) : FactorConfig :=
  {| fc_factor_id := 1; fc_model_id := None; fc_codes_list := [];
     fc_enabled := true; fc_config := c;
     fc_created_by := None; fc_updated_by := None |}.

Definition db_of (c : Config) : Database :=
  {| definitions := [turnover]; models := [daily_model; ma_model];
     configs := [row_of c] |}.

Definition layered : Config :=
  {| enabled := Some true;
     mappings := Some [mapping_x; mapping_xz; mapping_rest] |}.

Definition suppressed : Config :=
  {| enabled := Some false;
     mappings := Some [mapping_x; mapping_xz; mapping_rest] |}.

Definition specific_only : Config :=
  {| enabled := Some true; mappings := Some [mapping_x] |}.

Definition stale : Config :=
  {| enabled := Some true; mappings := Some [mapping_stale; mapping_rest] |}.

End Demo.

Module Batch.


End Batch.

Module ModelDemo.

Definition session : Session :=
  {| working := Demo.db_of Demo.layered; stored := Demo.db_of Demo.layered |}.

(** Make the moving-average model the default of factor 1. *)
Definition promote : ModelOp := UpdateModel 2 None None None (Some true) None.

End ModelDemo.

Module TurnoverRateDemo.

Import TurnoverRate.

Open Scope Z_scope.

Definition ma_config (w : Z) : CalcConfig :=
  {| source := "daily_basic"; field := "turnover_rate"; method := Some "ma"%string;
     window := w |}.

Definition raw_config (src fld : string) : CalcConfig :=
  {| source := src; field := fld; method := None; window := 5 |}.

Definition observed (d : string) (v : Value) : Observation :=
  {| trade_date := DateText d; values := [("turnover_rate"%string, v)] |}.

Definition failing : Source := fun _ _ _ => FetchFailed.

Definition serving (rows : list Observation) : Source := fun _ _ _ => Fetched rows.

Definition three_times (w : Z) : Z := 3 * w.





End TurnoverRateDemo.

Module ExtraDemo.

(** The factor and its two models, without any configuration row. *)
Definition bare_db : Database :=
  {| definitions := [Demo.turnover]; models := [Demo.daily_model; Demo.ma_model];
     configs := [] |}.

Definition bare : Session := {| working := bare_db; stored := bare_db |}.

(** The same with the layered configuration of factor 1. *)
Definition configured : Session := ModelDemo.session.

(** Rows of the factors 1, 2, 1 in that order. *)
Definition row_for (f : Z) (e : bool) : FactorConfig :=
  {| fc_factor_id := f; fc_model_id := None; fc_codes_list := [];
     fc_enabled := e; fc_config := empty_config;
     fc_created_by := None; fc_updated_by := None |}.

Definition three_rows : list FactorConfig :=
  [row_for 1 true; row_for 2 false; row_for 1 false].

(** Ten rows to page through, whatever the order asked. *)
Definition ten (order : list unit) : list nat := seq 0 10.

Definition registry : SyncStrategyFactory.Registry nat :=
  SyncStrategyFactory._strategies nat 1%nat 2%nat 3%nat 4%nat 5%nat.

(** A configuration naming a missing model, one without [model_id], and a
    body that gives the mappings only. *)
Definition stale_config : Config :=
  {| enabled := Some true; mappings := Some [Demo.mapping_stale] |}.

Definition anonymous_config : Config :=
  {| enabled := Some true; mappings := Some [Demo.mapping_anonymous] |}.

Definition only_mappings : Api.FactorConfigUpdate :=
  {| Api.update_mappings := Some [Demo.mapping_rest]; Api.update_enabled := None |}.

End ExtraDemo.

(** * Properties of the resolver *)

Lemma code_in_spec (code : string) (l : list string) :
  code_in code l = true <-> In code l.
Proof.
  unfold code_in. rewrite existsb_exists. split.
  - intros [x [Hin Heq]]. apply String.eqb_eq in Heq. now subst.
  - intros Hin. exists code. split; [assumption | apply String.eqb_refl].
Qed.

Lemma specific_for_spec (code : string) (mapping : Mapping) :
  specific_for code mapping = true <-> code_listed code mapping.
Proof.
  unfold specific_for, code_listed. destruct (codes mapping) as [l|].
  - split.
    + intros H. apply andb_true_iff in H. destruct H as [_ H].
      exists l. split; [reflexivity | now apply code_in_spec].
    + intros [l' [Heq Hin]]. injection Heq as <-.
      apply andb_true_iff. split.
      * destruct l; [contradiction | reflexivity].
      * now apply code_in_spec.
  - split; [discriminate | intros [l [Heq _]]; discriminate].
Qed.

Lemma is_default_mapping_spec (mapping : Mapping) :
  is_default_mapping mapping = true <-> codes_empty mapping.
Proof.
  unfold is_default_mapping, codes_empty.
  destruct (codes mapping) as [[|c l]|]; simpl; split; intros H;
    solve [auto | discriminate | destruct H; discriminate].
Qed.

Lemma find_first {A : Type} (p : A -> bool) (pre : list A) (x : A) (post : list A) :
  (forall y, In y pre -> p y = false) -> p x = true ->
  find p (pre ++ x :: post) = Some x.
Proof.
  induction pre as [|y pre IH]; simpl; intros Hpre Hx.
  - now rewrite Hx.
  - rewrite (Hpre y (or_introl eq_refl)). apply IH; auto.
Qed.

Lemma find_nothing {A : Type} (p : A -> bool) (l : list A) :
  (forall y, In y l -> p y = false) -> find p l = None.
Proof.
  induction l as [|y l IH]; simpl; intros H; [reflexivity|].
  rewrite (H y (or_introl eq_refl)). apply IH; auto.
Qed.

Lemma not_true_false (b : bool) (P : Prop) : (b = true <-> P) -> ~ P -> b = false.
Proof. destruct b; intros [H _] HP; [exfalso; auto | reflexivity]. Qed.

(** The resolver on an enabled configuration: the two scans. *)
Lemma get_model_for_code_enabled (db : Database) (factor_id : Z)
  (factor_def : FactorDefinition) (row : FactorConfig) (code : string) :
  get_factor_definition db factor_id = Return factor_def ->
  config_of db factor_def = Some row ->
  get_enabled (fc_config row) = true ->
  get_model_for_code db factor_id code =
    match find (specific_for code) (get_mappings (fc_config row)) with
    | Some mapping => model_of_mapping db factor_id mapping
    | None =>
        match find is_default_mapping (get_mappings (fc_config row)) with
        | Some mapping => model_of_mapping db factor_id mapping
        | None => Return (get_default_factor_model db factor_id)
        end
    end.
Proof.
  intros Hdef Hrow Hen. unfold get_model_for_code, get_config.
  rewrite Hdef. simpl. rewrite Hrow. simpl. now rewrite Hen.
Qed.

(** C1: on an enabled configuration the resolver answers with the first
    mapping, in stored order, whose codes contain the queried code: the model
    its [model_id] names, or the factor's default model when the [model_id]
    is absent or zero.  Mappings that list the code further down the list
    play no part. *)
Theorem get_model_for_code_first_match (db : Database) (factor_id : Z)
  (factor_def : FactorDefinition) (row : FactorConfig) (code : string)
  (pre : list Mapping) (mapping : Mapping) (post : list Mapping) :
  get_factor_definition db factor_id = Return factor_def ->
  config_of db factor_def = Some row ->
  get_enabled (fc_config row) = true ->
  get_mappings (fc_config row) = (pre ++ mapping :: post)%list ->
  (forall m, In m pre -> ~ code_listed code m) ->
  code_listed code mapping ->
  get_model_for_code db factor_id code =
    match model_id mapping with
    | Some mid =>
        if mid =? 0 then Return (get_default_factor_model db factor_id)
        else match get_factor_model db mid with
             | Return model => Return (Some model)
             | Raise e => Raise e
             end
    | None => Return (get_default_factor_model db factor_id)
    end.
Proof.
  intros Hdef Hrow Hen Hms Hpre Hm.
  rewrite (get_model_for_code_enabled db factor_id factor_def row code Hdef Hrow Hen).
  rewrite Hms, find_first.
  - unfold model_of_mapping. destruct (model_id mapping) as [mid|]; [|reflexivity].
    destruct (mid =? 0); reflexivity.
  - intros m Hin. apply (not_true_false _ _ (specific_for_spec code m)). auto.
  - now apply specific_for_spec.
Qed.

Lemma get_model_for_code_first_match_witness :
  get_model_for_code (Demo.db_of Demo.layered) 1 "X" = Return (Some Demo.ma_model).
Proof.
  apply (get_model_for_code_first_match (Demo.db_of Demo.layered) 1 Demo.turnover
           (Demo.row_of Demo.layered) "X" [] Demo.mapping_x
           [Demo.mapping_xz; Demo.mapping_rest]);
    try reflexivity.
  - intros m [].
  - exists ["X"]. split; [reflexivity | now left].
Defined.

(** C6: on a configuration whose [enabled] is false the resolver answers
    [None] for every code, whatever the mappings are. *)
Theorem get_model_for_code_disabled (db : Database) (factor_id : Z)
  (factor_def : FactorDefinition) (row : FactorConfig) (code : string) :
  get_factor_definition db factor_id = Return factor_def ->
  config_of db factor_def = Some row ->
  enabled (fc_config row) = Some false ->
  get_model_for_code db factor_id code = Return None.
Proof.
  intros Hdef Hrow Hen. unfold get_model_for_code, get_config, get_enabled.
  rewrite Hdef. simpl. rewrite Hrow. simpl. now rewrite Hen.
Qed.

Lemma get_model_for_code_disabled_witness :
  get_model_for_code (Demo.db_of Demo.suppressed) 1 "X" = Return None.
Proof.
  apply (get_model_for_code_disabled (Demo.db_of Demo.suppressed) 1 Demo.turnover
           (Demo.row_of Demo.suppressed) "X"); reflexivity.
Defined.

(** C7: on an enabled configuration, for a code that no mapping lists, the
    resolver answers with the first mapping whose codes are empty or absent
    (the model its [model_id] names, or the factor's default model when the
    [model_id] is absent or zero); when there is no such mapping either, and
    in particular when there is no mapping at all, it answers with the
    factor's default model. *)
Theorem get_model_for_code_fallback (db : Database) (factor_id : Z)
  (factor_def : FactorDefinition) (row : FactorConfig) (code : string) :
  get_factor_definition db factor_id = Return factor_def ->
  config_of db factor_def = Some row ->
  get_enabled (fc_config row) = true ->
  (forall m, In m (get_mappings (fc_config row)) -> ~ code_listed code m) ->
  (forall pre mapping post,
      get_mappings (fc_config row) = (pre ++ mapping :: post)%list ->
      (forall m, In m pre -> ~ codes_empty m) ->
      codes_empty mapping ->
      get_model_for_code db factor_id code =
        match model_id mapping with
        | Some mid =>
            if mid =? 0 then Return (get_default_factor_model db factor_id)
            else match get_factor_model db mid with
                 | Return model => Return (Some model)
                 | Raise e => Raise e
                 end
        | None => Return (get_default_factor_model db factor_id)
        end)
  /\ ((forall m, In m (get_mappings (fc_config row)) -> ~ codes_empty m) ->
      get_model_for_code db factor_id code =
        Return (get_default_factor_model db factor_id)).
Proof.
  intros Hdef Hrow Hen Hnone.
  rewrite (get_model_for_code_enabled db factor_id factor_def row code Hdef Hrow Hen).
  rewrite (find_nothing (specific_for code)).
  2:{ intros m Hin. apply (not_true_false _ _ (specific_for_spec code m)). auto. }
  split.
  - intros pre mapping post Hms Hpre Hm. rewrite Hms, find_first.
    + unfold model_of_mapping. destruct (model_id mapping) as [mid|]; [|reflexivity].
      destruct (mid =? 0); reflexivity.
    + intros m Hin. apply (not_true_false _ _ (is_default_mapping_spec m)). auto.
    + now apply is_default_mapping_spec.
  - intros Hnodef. rewrite find_nothing; [reflexivity|].
    intros m Hin. apply (not_true_false _ _ (is_default_mapping_spec m)). auto.
Qed.

(** No mapping of the list passes [test]: checked entry by entry. *)
Ltac none_of :=
  let m := fresh "m" in
  let Hin := fresh "Hin" in
  intros m Hin; simpl in Hin;
  repeat (destruct Hin as [<- | Hin];
          [ first [ intros [l [Hl HY]]; simpl in Hl;
                    first [ discriminate
                          | injection Hl as <-; simpl in HY; intuition discriminate ]
                  | intros [H | H]; discriminate ] | ]);
  contradiction.

Lemma get_model_for_code_fallback_witness :
  get_model_for_code (Demo.db_of Demo.layered) 1 "Y" = Return (Some Demo.daily_model)
  /\ get_model_for_code (Demo.db_of Demo.specific_only) 1 "Y" = Return (Some Demo.daily_model)
  /\ get_model_for_code (Demo.db_of empty_config) 1 "Y" = Return (Some Demo.daily_model).
Proof.
  split; [|split].
  - apply (proj1 (get_model_for_code_fallback (Demo.db_of Demo.layered) 1 Demo.turnover
                    (Demo.row_of Demo.layered) "Y" eq_refl eq_refl eq_refl
                    ltac:(none_of))
             [Demo.mapping_x; Demo.mapping_xz] Demo.mapping_rest [] eq_refl).
    + none_of.
    + now left.
  - apply (proj2 (get_model_for_code_fallback (Demo.db_of Demo.specific_only) 1
                    Demo.turnover (Demo.row_of Demo.specific_only) "Y"
                    eq_refl eq_refl eq_refl ltac:(none_of))).
    none_of.
  - apply (proj2 (get_model_for_code_fallback (Demo.db_of empty_config) 1 Demo.turnover
                    (Demo.row_of empty_config) "Y" eq_refl eq_refl eq_refl
                    ltac:(none_of))).
    none_of.
Defined.

(** C10: on an enabled configuration, when the first mapping that lists the
    code carries a non-zero [model_id] for which no model row exists, the
    resolver raises [NotFoundError] (through [get_factor_model]); it neither
    answers [None] nor falls back to the default model. *)
Theorem get_model_for_code_stale_model (db : Database) (factor_id : Z)
  (factor_def : FactorDefinition) (row : FactorConfig) (code : string)
  (pre : list Mapping) (mapping : Mapping) (post : list Mapping) (mid : Z) :
  get_factor_definition db factor_id = Return factor_def ->
  config_of db factor_def = Some row ->
  get_enabled (fc_config row) = true ->
  get_mappings (fc_config row) = (pre ++ mapping :: post)%list ->
  (forall m, In m pre -> ~ code_listed code m) ->
  code_listed code mapping ->
  model_id mapping = Some mid ->
  mid <> 0 ->
  (forall model, In model (models db) -> fm_id model <> mid) ->
  get_model_for_code db factor_id code = Raise (NotFoundError FactorModelEntity mid).
Proof.
  intros Hdef Hrow Hen Hms Hpre Hm Hmid Hnz Hmissing.
  rewrite (get_model_for_code_enabled db factor_id factor_def row code Hdef Hrow Hen).
  rewrite Hms, find_first.
  - unfold model_of_mapping. rewrite Hmid.
    apply Z.eqb_neq in Hnz. rewrite Hnz. simpl.
    unfold get_factor_model. rewrite find_nothing; [reflexivity|].
    intros model Hin. apply Z.eqb_neq. auto.
  - intros m Hin. apply (not_true_false _ _ (specific_for_spec code m)). auto.
  - now apply specific_for_spec.
Qed.

Lemma get_model_for_code_stale_model_witness :
  get_model_for_code (Demo.db_of Demo.stale) 1 "S"
  = Raise (NotFoundError FactorModelEntity 999).
Proof.
  apply (get_model_for_code_stale_model (Demo.db_of Demo.stale) 1 Demo.turnover
           (Demo.row_of Demo.stale) "S" [] Demo.mapping_stale [Demo.mapping_rest] 999);
    try reflexivity.
  - intros m [].
  - exists ["S"]. split; [reflexivity | now left].
  - discriminate.
  - intros model Hin. simpl in Hin.
    destruct Hin as [<- | [<- | []]]; discriminate.
Defined.

(** * Write-time validation *)

Lemma check_models_ok (db : Database) (ms : list Mapping) :
  check_models db ms = Return tt <-> (forall m, In m ms -> names_model db m).
Proof.
  induction ms as [|m ms IH]; simpl.
  - split; [intros _ m [] | reflexivity].
  - destruct (model_id m) as [mid|] eqn:Hmid.
    + destruct (mid =? 0) eqn:Hz; simpl.
      * split; [discriminate|]. intros H.
        destruct (H m (or_introl eq_refl)) as [mid' [model [Heq [Hnz _]]]].
        rewrite Hmid in Heq. injection Heq as <-.
        apply Z.eqb_eq in Hz. contradiction.
      * destruct (get_factor_model db mid) as [model|e] eqn:Hget; simpl.
        -- rewrite IH. split.
           ++ intros H m' [<- | Hin]; [|auto].
              exists mid, model. apply Z.eqb_neq in Hz. auto.
           ++ intros H m' Hin. auto.
        -- split; [discriminate|]. intros H.
           destruct (H m (or_introl eq_refl)) as [mid' [model [Heq [_ Hfound]]]].
           rewrite Hmid in Heq. injection Heq as <-.
           rewrite Hget in Hfound. discriminate.
    + split; [discriminate|]. intros H.
      destruct (H m (or_introl eq_refl)) as [mid' [model [Heq _]]].
      rewrite Hmid in Heq. discriminate.
Qed.

Lemma validate_mappings_raises_several (db : Database) (ms : list Mapping) :
  2 <= default_count ms -> exists e, validate_mappings db ms = Raise e.
Proof.
  intros H. unfold validate_mappings.
  destruct (check_models db ms) as [[]|e]; simpl.
  - assert (Hgt : (default_count ms >? 1) = true) by (apply Z.gtb_lt; lia).
    rewrite Hgt. eauto.
  - eauto.
Qed.

(** C4, as the code has it: validation succeeds exactly when every mapping
    carries a non-zero [model_id] naming an existing model and at most one
    mapping is a default one; a mapping without [model_id] is rejected, and
    so is every configuration with two or more default mappings. *)
Theorem validate_mappings_decides (db : Database) (ms : list Mapping) :
  (validate_mappings db ms = Return tt <->
     (forall m, In m ms -> names_model db m) /\ default_count ms <= 1)
  /\ ((exists m, In m ms /\ (model_id m = None \/ model_id m = Some 0)) ->
      exists e, validate_mappings db ms = Raise e)
  /\ (2 <= default_count ms -> exists e, validate_mappings db ms = Raise e).
Proof.
  split; [|split].
  - unfold validate_mappings. split.
    + intros H. destruct (check_models db ms) as [[]|e] eqn:Hc; simpl in H; [|discriminate].
      split; [now apply check_models_ok|].
      destruct (default_count ms >? 1) eqn:Hgt; [discriminate|].
      rewrite Z.gtb_ltb in Hgt. apply Z.ltb_ge in Hgt. exact Hgt.
    + intros [Hall Hcount]. apply check_models_ok in Hall. rewrite Hall. simpl.
      assert (Hgt : (default_count ms >? 1) = false)
        by (rewrite Z.gtb_ltb; apply Z.ltb_ge; exact Hcount).
      now rewrite Hgt.
  - intros [m [Hin Hm]].
    destruct (validate_mappings db ms) as [[]|e] eqn:Hv; [|eauto].
    exfalso. unfold validate_mappings in Hv.
    destruct (check_models db ms) as [[]|e] eqn:Hc; simpl in Hv; [|discriminate].
    destruct (proj1 (check_models_ok db ms) Hc m Hin) as [mid [model [Heq [Hnz _]]]].
    destruct Hm as [Hm | Hm]; rewrite Hm in Heq; [discriminate|].
    injection Heq as <-. now apply Hnz.
  - apply validate_mappings_raises_several.
Qed.

Lemma validate_mappings_decides_witness :
  validate_mappings (Demo.db_of Demo.layered) (get_mappings Demo.layered) = Return tt
  /\ (exists e, validate_mappings (Demo.db_of Demo.layered) [Demo.mapping_anonymous] = Raise e)
  /\ (exists e, validate_mappings (Demo.db_of Demo.layered)
                  [Demo.mapping_rest; Demo.mapping_rest] = Raise e).
Proof.
  split; [|split].
  - apply (proj1 (validate_mappings_decides (Demo.db_of Demo.layered)
                    (get_mappings Demo.layered))).
    split.
    + intros m Hin. simpl in Hin.
      destruct Hin as [<- | [<- | [<- | []]]].
      * exists 2, Demo.ma_model. repeat split; [discriminate].
      * exists 1, Demo.daily_model. repeat split; [discriminate].
      * exists 1, Demo.daily_model. repeat split; [discriminate].
    + vm_compute. discriminate.
  - apply (proj1 (proj2 (validate_mappings_decides (Demo.db_of Demo.layered)
                           [Demo.mapping_anonymous]))).
    exists Demo.mapping_anonymous. split; [now left | now left].
  - apply (proj2 (proj2 (validate_mappings_decides (Demo.db_of Demo.layered)
                           [Demo.mapping_rest; Demo.mapping_rest]))).
    vm_compute. discriminate.
Defined.

(** C4, as the specification words it, fails: a configuration whose only
    mapping has no [model_id] has no default mapping and no [model_id] that
    misses its model, and yet the validation raises [ValueError]. *)
Lemma validate_mappings_rejects_absent_model_id :
  default_count [Demo.mapping_anonymous] <= 1
  /\ (forall m mid, In m [Demo.mapping_anonymous] -> model_id m = Some mid ->
        exists model, get_factor_model (Demo.db_of Demo.layered) mid = Return model)
  /\ validate_mappings (Demo.db_of Demo.layered) [Demo.mapping_anonymous]
     = Raise (ValueError MissingModelId).
Proof.
  split; [|split].
  - vm_compute. discriminate.
  - intros m mid [<- | []] H. discriminate.
  - reflexivity.
Qed.

(** * Rejected writes and the session *)

Ltac run_session :=
  unfold bind, query, modify, commit, raise, ret, when_given; simpl.








(** * At most one default model per factor *)

Lemma neutral_name n : neutral (with_model_name n).
Proof. intros m. auto. Qed.

Lemma neutral_code c : neutral (with_model_code c).
Proof. intros m. auto. Qed.

Lemma neutral_json j : neutral (with_config_json j).
Proof. intros m. auto. Qed.

Lemma neutral_enabled b : neutral (with_model_enabled b).
Proof. intros m. auto. Qed.

Create HintDb models.

#[local] Hint Resolve neutral_name neutral_code neutral_json neutral_enabled : models.

Ltac by_flags x f :=
  unfold is_default_of in *; simpl in *;
  destruct (fm_factor_id x =? f) eqn:?; destruct (fm_is_default x) eqn:?;
  simpl in *;
  repeat match goal with
         | H : ?a = true |- context [?a] => rewrite H
         | H : ?a = false |- context [?a] => rewrite H
         end; simpl in *.

Lemma default_models_clear_same (f : Z) (l : list FactorModel) :
  default_models (clear_defaults f l) f = [].
Proof.
  unfold default_models, clear_defaults.
  induction l as [|x l IH]; simpl; [reflexivity|].
  by_flags x f; exact IH.
Qed.

Lemma default_models_clear_other (f f' : Z) (l : list FactorModel) :
  f' <> f -> default_models (clear_defaults f l) f' = default_models l f'.
Proof.
  intros Hne. unfold default_models, clear_defaults.
  induction l as [|x l IH]; simpl; [reflexivity|].
  destruct (fm_factor_id x =? f') eqn:Hf'.
  - assert (Hf : (fm_factor_id x =? f) = false).
    { apply Z.eqb_eq in Hf'. apply Z.eqb_neq. congruence. }
    unfold is_default_of in *. rewrite Hf. simpl. rewrite Hf'. simpl.
    destruct (fm_is_default x); simpl; now rewrite IH.
  - unfold is_default_of in *.
    destruct ((fm_factor_id x =? f) && fm_is_default x); simpl;
      rewrite Hf'; simpl; exact IH.
Qed.

Lemma default_count_neutral (p : FactorModel -> bool) (g : FactorModel -> FactorModel)
  (f : Z) (l : list FactorModel) :
  neutral g ->
  List.length (default_models (update_first p g l) f)
  = List.length (default_models l f).
Proof.
  intros Hg. unfold default_models.
  induction l as [|x l IH]; simpl; [reflexivity|].
  destruct (p x); simpl.
  - destruct (Hg x) as [_ [Hf Hd]]. unfold is_default_of.
    rewrite Hf, Hd. destruct ((fm_factor_id x =? f) && fm_is_default x); reflexivity.
  - destruct (is_default_of f x); simpl; now rewrite IH.
Qed.

Lemma default_count_unset (p : FactorModel -> bool) (f : Z) (l : list FactorModel) :
  (List.length (default_models (update_first p (with_is_default false) l) f)
   <= List.length (default_models l f))%nat.
Proof.
  unfold default_models.
  induction l as [|x l IH]; simpl; [lia|].
  destruct (p x); simpl.
  - replace (is_default_of f (with_is_default false x)) with false
      by (unfold is_default_of; simpl; now rewrite andb_false_r).
    destruct (is_default_of f x); simpl; lia.
  - destruct (is_default_of f x); simpl; lia.
Qed.

Lemma default_count_set_other (p : FactorModel -> bool) (f : Z) (l : list FactorModel)
  (m0 : FactorModel) :
  find p l = Some m0 -> fm_factor_id m0 <> f ->
  default_models (update_first p (with_is_default true) l) f = default_models l f.
Proof.
  unfold default_models.
  induction l as [|x l IH]; simpl; [discriminate|].
  destruct (p x); simpl.
  - intros H Hne. injection H as <-.
    apply Z.eqb_neq in Hne. unfold is_default_of. simpl. now rewrite Hne.
  - intros H Hne. rewrite (IH H Hne). reflexivity.
Qed.

Lemma default_models_set_same (p : FactorModel -> bool) (f : Z) (l : list FactorModel)
  (m0 : FactorModel) :
  find p l = Some m0 -> fm_factor_id m0 = f -> default_models l f = [] ->
  default_models (update_first p (with_is_default true) l) f = [with_is_default true m0].
Proof.
  unfold default_models.
  induction l as [|x l IH]; simpl; [discriminate|].
  destruct (p x); simpl.
  - intros H Hf. injection H as <-. apply Z.eqb_eq in Hf.
    replace (is_default_of f (with_is_default true x)) with true
      by (unfold is_default_of; simpl; now rewrite Hf).
    destruct (is_default_of f x); [discriminate|]. intros ->. reflexivity.
  - destruct (is_default_of f x); [discriminate|]. intros H Hf Hnil. now apply IH.
Qed.

(** The row an ORM object stands for keeps its key and factor through the
    assignments and the bulk update. *)
Lemma find_update_first (k : Z) (g : FactorModel -> FactorModel) (l : list FactorModel) :
  (forall m, fm_id (g m) = fm_id m) ->
  find (fun m => fm_id m =? k) (update_first (fun m => fm_id m =? k) g l)
  = option_map g (find (fun m => fm_id m =? k) l).
Proof.
  intros Hg. induction l as [|x l IH]; simpl; [reflexivity|].
  destruct (fm_id x =? k) eqn:Hx; simpl.
  - now rewrite Hg, Hx.
  - now rewrite Hx.
Qed.

Lemma find_clear_defaults (k f : Z) (l : list FactorModel) :
  find (fun m => fm_id m =? k) (clear_defaults f l)
  = option_map (fun m => if is_default_of f m then with_is_default false m else m)
      (find (fun m => fm_id m =? k) l).
Proof.
  unfold clear_defaults, is_default_of.
  induction l as [|x l IH]; simpl; [reflexivity|].
  destruct ((fm_factor_id x =? f) && fm_is_default x) eqn:Hx; simpl;
    destruct (fm_id x =? k); simpl; try rewrite Hx; auto.
Qed.

Lemma first_factor_update (k : Z) (g : FactorModel -> FactorModel) (l : list FactorModel) :
  neutral g ->
  option_map fm_factor_id
    (find (fun m => fm_id m =? k) (update_first (fun m => fm_id m =? k) g l))
  = option_map fm_factor_id (find (fun m => fm_id m =? k) l).
Proof.
  intros Hg. rewrite find_update_first by (intros m; apply Hg).
  destruct (find _ l) as [m|]; simpl; [|reflexivity].
  f_equal. apply Hg.
Qed.

Lemma first_factor_clear (k f : Z) (l : list FactorModel) :
  option_map fm_factor_id (find (fun m => fm_id m =? k) (clear_defaults f l))
  = option_map fm_factor_id (find (fun m => fm_id m =? k) l).
Proof.
  rewrite find_clear_defaults.
  destruct (find _ l) as [m|]; simpl; [|reflexivity].
  destruct (is_default_of f m); reflexivity.
Qed.

Lemma get_factor_model_found (db : Database) (k : Z) (model : FactorModel) :
  get_factor_model db k = Return model ->
  find (fun m => fm_id m =? k) (models db) = Some model /\ fm_id model = k.
Proof.
  unfold get_factor_model. destruct (find _ (models db)) as [m|] eqn:Hf; [|discriminate].
  intros H. injection H as <-. split; [reflexivity|].
  apply find_some in Hf. destruct Hf as [_ Hk]. now apply Z.eqb_eq.
Qed.

Lemma default_models_snoc (l : list FactorModel) (m : FactorModel) (f : Z) :
  default_models (l ++ [m]) f
  = (default_models l f ++ (if is_default_of f m then [m] else []))%list.
Proof. unfold default_models. rewrite filter_app. reflexivity. Qed.

Lemma default_count_delete (q : FactorModel -> bool) (l : list FactorModel) (f : Z) :
  (List.length (default_models (filter q l) f) <= List.length (default_models l f))%nat.
Proof.
  unfold default_models. induction l as [|x l IH]; simpl; [lia|].
  destruct (q x); simpl; destruct (is_default_of f x); simpl; lia.
Qed.

(** What a creation leaves behind. *)
Lemma create_factor_model_session (f : Z) (n c : string) (j : option string)
  (d e : bool) (s : Session) :
  one_default_per_factor (working s) ->
  one_default_per_factor (working (snd (create_factor_model f n c j d e s)))
  /\ (stored (snd (create_factor_model f n c j d e s))
      = working (snd (create_factor_model f n c j d e s))
      \/ snd (create_factor_model f n c j d e s) = s).
Proof.
  intros Hinv. unfold create_factor_model. run_session.
  destruct (get_factor_definition (working s) f); simpl; [|auto].
  destruct d; simpl; (split; [|now left]); intros f'; simpl;
    rewrite default_models_snoc, length_app.
  - destruct (Z.eq_dec f' f) as [->|Hne].
    + rewrite default_models_clear_same. simpl.
      destruct (is_default_of f _); simpl; lia.
    + rewrite default_models_clear_other by assumption.
      assert (Hff : (f =? f') = false) by (apply Z.eqb_neq; congruence).
      unfold is_default_of. simpl. rewrite Hff. simpl.
      specialize (Hinv f'). lia.
  - unfold is_default_of. simpl. rewrite andb_false_r. simpl.
    specialize (Hinv f'). lia.
Qed.

Lemma delete_factor_model_session (k : Z) (s : Session) :
  one_default_per_factor (working s) ->
  one_default_per_factor (working (snd (delete_factor_model k s)))
  /\ (stored (snd (delete_factor_model k s)) = working (snd (delete_factor_model k s))
      \/ snd (delete_factor_model k s) = s).
Proof.
  intros Hinv. unfold delete_factor_model. run_session.
  destruct (get_factor_model (working s) k); simpl; [|auto].
  split; [|now left]. intros f'. simpl.
  eapply Nat.le_trans; [apply default_count_delete | apply Hinv].
Qed.

Ltac drop_neutral :=
  repeat rewrite default_count_neutral by auto with models.

Ltac first_row_factor :=
  rewrite ?first_factor_clear;
  repeat rewrite first_factor_update by auto with models.

(** The row selected by the key of [model] in the list [X], once [X] is the
    model table after the neutral assignments and the bulk update. *)
Ltac locate_row X Hfind m' Hm' Hfac :=
  let Hfirst := fresh "Hfirst" in
  match type of Hfind with
  | find (fun m => fm_id m =? ?k) _ = Some ?model =>
      assert (Hfirst : option_map fm_factor_id (find (fun m => fm_id m =? k) X)
                       = Some (fm_factor_id model))
        by (first_row_factor; rewrite Hfind; reflexivity);
      destruct (find (fun m => fm_id m =? k) X) as [m'|] eqn:Hm';
        [simpl in Hfirst; injection Hfirst as Hfac | discriminate Hfirst]
  end.

Lemma update_factor_model_session (k : Z) (n c j : option string) (d e : option bool)
  (s : Session) :
  one_default_per_factor (working s) ->
  one_default_per_factor (working (snd (update_factor_model k n c j d e s)))
  /\ (stored (snd (update_factor_model k n c j d e s))
      = working (snd (update_factor_model k n c j d e s))
      \/ snd (update_factor_model k n c j d e s) = s).
Proof.
  intros Hinv. unfold update_factor_model, assign_model. run_session.
  destruct (get_factor_model (working s) k) as [model|] eqn:Hget; simpl; [|auto].
  apply get_factor_model_found in Hget. destruct Hget as [Hfind Hk]. rewrite Hk.
  destruct n, c, j, e, d as [[|]|]; run_session;
    (split; [|now left]); intros f'; unfold set_models; simpl.
  all: try (drop_neutral; apply Hinv).
  all: try (eapply Nat.le_trans; [apply default_count_unset|]; drop_neutral; apply Hinv).
  all: match goal with
       | |- context [update_first _ (with_is_default true) ?X] =>
           let m' := fresh "m" in
           let Hm' := fresh "Hm" in
           let Hfac := fresh "Hfac" in
           locate_row X Hfind m' Hm' Hfac;
           destruct (Z.eq_dec (fm_factor_id model) f') as [Heq|Hne];
           [ rewrite <- Heq;
             rewrite (default_models_set_same _ _ _ m' Hm' Hfac
                        (default_models_clear_same _ _)); simpl; lia
           | rewrite (default_count_set_other _ f' _ m' Hm')
               by (rewrite Hfac; exact Hne);
             rewrite default_models_clear_other by congruence;
             drop_neutral; apply Hinv ]
       end.
Qed.

(** With [is_default = True], a creation leaves the new model as the only
    default of its factor. *)
Lemma create_factor_model_sole_default (f : Z) (n c : string) (j : option string)
  (e : bool) (s s' : Session) (model : FactorModel) :
  create_factor_model f n c j true e s = (Return model, s') ->
  default_models (models (working s')) f = [model].
Proof.
  unfold create_factor_model. run_session.
  destruct (get_factor_definition (working s) f); simpl; [|discriminate].
  intros H. injection H as <- <-. simpl.
  rewrite default_models_snoc, default_models_clear_same.
  unfold is_default_of. simpl. now rewrite Z.eqb_refl.
Qed.

(** With [is_default = True], an update leaves the updated model as the only
    default of its factor. *)
Lemma update_factor_model_sole_default (k : Z) (n c j : option string)
  (e : option bool) (s s' : Session) (model : FactorModel) :
  update_factor_model k n c j (Some true) e s = (Return model, s') ->
  default_models (models (working s')) (fm_factor_id model) = [model].
Proof.
  unfold update_factor_model, assign_model. run_session.
  destruct (get_factor_model (working s) k) as [old|] eqn:Hget; simpl; [|discriminate].
  apply get_factor_model_found in Hget. destruct Hget as [Hfind Hk]. rewrite Hk.
  destruct n, c, j, e; run_session; unfold set_models, get_factor_model; simpl;
    match goal with
    | |- context [update_first _ (with_is_default true) ?X] =>
        let m' := fresh "m" in
        let Hm' := fresh "Hm" in
        let Hfac := fresh "Hfac" in
        locate_row X Hfind m' Hm' Hfac;
        rewrite find_update_first by reflexivity;
        rewrite Hm'; simpl; intros H; injection H as <- <-; simpl;
        rewrite Hfac;
        apply (default_models_set_same _ _ _ m' Hm' Hfac
                 (default_models_clear_same _ _))
    end.
Qed.

(** C9: every operation on factor models keeps "at most one default model
    per factor", in the transaction's view and in the committed database;
    and a creation or an update with [is_default = True] clears the flag of
    all the models of the factor first, so that the model it writes ends up as
    the only default of its factor. *)
Theorem model_ops_keep_one_default (op : ModelOp) (s : Session) :
  one_default_per_factor (working s) ->
  one_default_per_factor (stored s) ->
  (one_default_per_factor (working (run_model_op op s))
   /\ one_default_per_factor (stored (run_model_op op s)))
  /\ (forall f n c j e model s',
        create_factor_model f n c j true e s = (Return model, s') ->
        default_models (models (working s')) f = [model])
  /\ (forall k n c j e model s',
        update_factor_model k n c j (Some true) e s = (Return model, s') ->
        default_models (models (working s')) (fm_factor_id model) = [model]).
Proof.
  intros Hw Hs. split; [|split].
  - assert (Hgen : forall s', one_default_per_factor (working s') /\
                              (stored s' = working s' \/ s' = s) ->
                              one_default_per_factor (working s') /\
                              one_default_per_factor (stored s')).
    { intros s' [H1 [H2 | H2]]; split; auto.
      - now rewrite H2.
      - now rewrite H2. }
    apply Hgen. destruct op; simpl.
    + now apply create_factor_model_session.
    + now apply update_factor_model_session.
    + now apply delete_factor_model_session.
  - intros f n c j e model s'. apply create_factor_model_sole_default.
  - intros k n c j e model s'. apply update_factor_model_sole_default.
Qed.

Lemma demo_one_default : one_default_per_factor (Demo.db_of Demo.layered).
Proof.
  intros f.
  cbv [Demo.db_of models default_models filter is_default_of Demo.daily_model
       Demo.ma_model fm_factor_id fm_is_default].
  destruct (1 =? f); simpl; lia.
Qed.

Lemma model_ops_keep_one_default_witness :
  (one_default_per_factor (working (run_model_op ModelDemo.promote ModelDemo.session))
   /\ one_default_per_factor (stored (run_model_op ModelDemo.promote ModelDemo.session)))
  /\ default_models
       (models (working (snd (update_factor_model 2 None None None (Some true) None
                                ModelDemo.session)))) 1
     = [with_is_default true Demo.ma_model].
Proof.
  pose proof (model_ops_keep_one_default ModelDemo.promote ModelDemo.session
                demo_one_default demo_one_default)
    as [Hkeep [_ Hupd]].
  split; [exact Hkeep|].
  exact (Hupd 2 None None None None (with_is_default true Demo.ma_model)
           (snd (update_factor_model 2 None None None (Some true) None
                   ModelDemo.session)) eq_refl).
Defined.

(** Under the invariant, [get_default_factor_model] answers with the one
    default model of the factor whenever that model is enabled. *)
Lemma get_default_factor_model_unique (db : Database) (f : Z) (m : FactorModel) :
  one_default_per_factor db ->
  In m (models db) -> fm_factor_id m = f -> fm_is_default m = true ->
  fm_enabled m = true ->
  get_default_factor_model db f = Some m.
Proof.
  intros Hinv Hin Hf Hd He. unfold get_default_factor_model.
  destruct (find _ (models db)) as [x|] eqn:Hx.
  - apply find_some in Hx. destruct Hx as [Hxin Hxp].
    apply andb_true_iff in Hxp. destruct Hxp as [Hxp _].
    assert (Hmd : In m (default_models (models db) f)).
    { apply filter_In. split; [assumption|]. unfold is_default_of.
      rewrite Hd. apply Z.eqb_eq in Hf. now rewrite Hf. }
    assert (Hxd : In x (default_models (models db) f))
      by (apply filter_In; split; assumption).
    specialize (Hinv f).
    destruct (default_models (models db) f) as [|a [|b r]]; simpl in *.
    + contradiction.
    + destruct Hmd as [<- | []]. destruct Hxd as [<- | []]. reflexivity.
    + lia.
  - exfalso. apply (find_none _ _ Hx) in Hin.
    apply Z.eqb_eq in Hf. rewrite Hf, Hd, He in Hin. discriminate.
Qed.

(** * Properties of the turnover-rate calculator *)

Module TurnoverRateFacts.

Import TurnoverRate TurnoverRateProps TurnoverRateDemo.

Open Scope Z_scope.

Lemma is_ma_method (c : CalcConfig) : method c = Some "ma"%string -> is_ma c = true.
Proof. unfold is_ma. now intros ->. Qed.

Lemma recognised_spec (c : CalcConfig) :
  existsb (String.eqb (source c)) supported_sources = true <-> recognised c.
Proof.
  unfold recognised. rewrite existsb_exists. split.
  - intros [x [Hin Heq]]. apply String.eqb_eq in Heq. now subst.
  - intros Hin. exists (source c). split; [assumption | apply String.eqb_refl].
Qed.

Lemma validate_config_recognised (c : CalcConfig) :
  recognised c ->
  validate_config c =
    if String.eqb (field c) "" then (false, msg_field)
    else if is_ma c then
      if window c <=? 0 then (false, msg_window_positive)
      else if window c >? 60 then (false, msg_window_too_large)
      else (true, ""%string)
    else (true, ""%string).
Proof.
  intros H. apply recognised_spec in H. unfold validate_config. now rewrite H.
Qed.

(** C8: [validate_config] rejects every moving-average configuration whose
    window is at most 0 or above 60, with one message for each of the two
    cases; it rejects an unrecognised source with the message about the
    source and an empty field with the message about the field; the four
    messages are distinct; and it accepts every configuration with a
    recognised source, a non-empty field and, for the moving average, a
    window between 1 and 60. *)
Theorem validate_config_spec (c : CalcConfig) :
  (method c = Some "ma"%string -> window c <= 0 \/ 60 < window c ->
   fst (validate_config c) = false)
  /\ (recognised c -> field c <> ""%string -> method c = Some "ma"%string ->
      window c <= 0 -> validate_config c = (false, msg_window_positive))
  /\ (recognised c -> field c <> ""%string -> method c = Some "ma"%string ->
      60 < window c -> validate_config c = (false, msg_window_too_large))
  /\ (~ recognised c -> validate_config c = (false, msg_source))
  /\ (recognised c -> field c = ""%string -> validate_config c = (false, msg_field))
  /\ (recognised c -> field c <> ""%string ->
      (method c = Some "ma"%string -> 1 <= window c <= 60) ->
      validate_config c = (true, ""%string))
  /\ NoDup [msg_source; msg_field; msg_window_positive; msg_window_too_large].
Proof.
  repeat match goal with |- _ /\ _ => split end.
  - intros Hma Hw. apply is_ma_method in Hma. unfold validate_config.
    destruct (negb _); [reflexivity|].
    destruct (String.eqb (field c) ""); [reflexivity|]. rewrite Hma.
    destruct (window c <=? 0) eqn:H0; [reflexivity|].
    apply Z.leb_gt in H0.
    assert (H60 : (window c >? 60) = true) by (apply Z.gtb_lt; lia).
    now rewrite H60.
  - intros Hs Hf Hma Hw. rewrite (validate_config_recognised c Hs).
    apply String.eqb_neq in Hf. rewrite Hf, (is_ma_method c Hma).
    apply Z.leb_le in Hw. now rewrite Hw.
  - intros Hs Hf Hma Hw. rewrite (validate_config_recognised c Hs).
    apply String.eqb_neq in Hf. rewrite Hf, (is_ma_method c Hma).
    assert (H0 : (window c <=? 0) = false) by (apply Z.leb_gt; lia).
    assert (H60 : (window c >? 60) = true) by (apply Z.gtb_lt; lia).
    now rewrite H0, H60.
  - intros Hs. unfold validate_config.
    destruct (existsb _ supported_sources) eqn:He; [|reflexivity].
    apply recognised_spec in He. contradiction.
  - intros Hs Hf. rewrite (validate_config_recognised c Hs), Hf. reflexivity.
  - intros Hs Hf Hw. rewrite (validate_config_recognised c Hs).
    apply String.eqb_neq in Hf. rewrite Hf.
    unfold is_ma. destruct (method c) as [m|]; [|reflexivity].
    destruct (String.eqb m "ma") eqn:Hm; [|reflexivity].
    apply String.eqb_eq in Hm. subst m. specialize (Hw eq_refl).
    assert (H0 : (window c <=? 0) = false) by (apply Z.leb_gt; lia).
    assert (H60 : (window c >? 60) = false)
      by (rewrite Z.gtb_ltb; apply Z.ltb_ge; lia).
    now rewrite H0, H60.
  - repeat constructor; simpl; intuition discriminate.
Qed.

Lemma validate_config_spec_witness :
  fst (validate_config (ma_config 61)) = false
  /\ validate_config (ma_config 0) = (false, msg_window_positive)
  /\ validate_config (ma_config 61) = (false, msg_window_too_large)
  /\ validate_config (raw_config "bogus" "turnover_rate") = (false, msg_source)
  /\ validate_config (raw_config "daily_basic" "") = (false, msg_field)
  /\ validate_config (ma_config 60) = (true, ""%string).
Proof.
  assert (Hr : forall w, recognised (ma_config w)) by (intros w; now left).
  assert (Hf : forall w, field (ma_config w) <> ""%string) by (intros w; discriminate).
  repeat match goal with |- _ /\ _ => split end.
  - apply (proj1 (validate_config_spec (ma_config 61)) eq_refl). right. reflexivity.
  - apply (validate_config_spec (ma_config 0)); auto. discriminate.
  - apply (validate_config_spec (ma_config 61)); auto. reflexivity.
  - apply (validate_config_spec (raw_config "bogus" "turnover_rate")).
    intros [H | []]. discriminate.
  - apply (validate_config_spec (raw_config "daily_basic" "")); [now left | reflexivity].
  - apply (validate_config_spec (ma_config 60)); auto.
    intros _. split; discriminate.
Defined.

(** ** The calculator never raises *)

Lemma sort_by_date_nil : sort_by_date [] = [].
Proof. reflexivity. Qed.

(** C3: [calculate] always returns, whatever the configuration, the source
    and the data; it returns null when the fetch fails, in raw mode when no
    row comes back or the field of the row is absent, null or not a number,
    and in moving-average mode when no row carries a number. *)
Theorem calculate_never_raises (fetch : Source) (lookback_days : Z -> Z)
  (c : CalcConfig) (code : string) (as_of : Date) :
  (exists r, calculate fetch lookback_days c code as_of = Done r)
  /\ (fetched fetch lookback_days c code as_of = FetchFailed ->
      calculate fetch lookback_days c code as_of = Done None)
  /\ (is_ma c = false -> fetch code as_of as_of = Fetched [] ->
      calculate fetch lookback_days c code as_of = Done None)
  /\ (forall o rest,
        is_ma c = false -> fetch code as_of as_of = Fetched (o :: rest) ->
        (forall q, get_field (field c) (values o) <> VNum q) ->
        calculate fetch lookback_days c code as_of = Done None)
  /\ (forall rows,
        is_ma c = true ->
        fetch code (as_of - lookback_days (window c)) as_of = Fetched rows ->
        (forall o q, In o rows -> get_field (field c) (values o) <> VNum q) ->
        calculate fetch lookback_days c code as_of = Done None).
Proof.
  repeat match goal with |- _ /\ _ => split end.
  - unfold calculate, or_null.
    destruct (if is_ma c then _ else _); eauto.
  - unfold fetched, calculate, calculate_ma, calculate_raw.
    destruct (is_ma c); intros ->; reflexivity.
  - intros Hraw Hf. unfold calculate, calculate_raw. now rewrite Hraw, Hf.
  - intros o rest Hraw Hf Hv. unfold calculate, calculate_raw. rewrite Hraw, Hf.
    destruct (get_field (field c) (values o)) as [|q|t]; try reflexivity.
    exfalso. now apply (Hv q).
  - intros rows Hma Hf Hv. unfold calculate, calculate_ma. rewrite Hma, Hf.
    assert (Hnil : valid_points (field c) rows = []).
    { clear Hf. induction rows as [|o rows IH]; simpl; [reflexivity|].
      unfold valid_point.
      destruct (get_field (field c) (values o)) as [|q|t] eqn:Hg.
      - apply IH. intros o' q' Hin. apply Hv. now right.
      - exfalso. apply (Hv o q); [now left | assumption].
      - apply IH. intros o' q' Hin. apply Hv. now right. }
    rewrite Hnil, sort_by_date_nil. simpl.
    destruct (0 <? window c); [reflexivity|].
    unfold tail_of. simpl. destruct (Z.to_nat (window c)); reflexivity.
Qed.

Lemma calculate_never_raises_witness :
  calculate failing three_times (ma_config 5) "000001.SZ" 739261 = Done None
  /\ calculate (serving []) three_times (raw_config "daily_basic" "turnover_rate")
       "000001.SZ" 739261 = Done None
  /\ calculate (serving [observed "2025-01-10" (VText "invalid")]) three_times
       (raw_config "daily_basic" "turnover_rate") "000001.SZ" 739261 = Done None
  /\ calculate (serving [observed "2025-01-10" VNull; observed "2025-01-09" VNull])
       three_times (ma_config 5) "000001.SZ" 739261 = Done None.
Proof.
  repeat match goal with |- _ /\ _ => split end.
  - apply (proj1 (proj2
             (calculate_never_raises failing three_times (ma_config 5)
                "000001.SZ" 739261))).
    reflexivity.
  - apply (proj1 (proj2 (proj2
             (calculate_never_raises (serving []) three_times
                (raw_config "daily_basic" "turnover_rate") "000001.SZ" 739261))));
      reflexivity.
  - apply (proj1 (proj2 (proj2 (proj2
             (calculate_never_raises
                (serving [observed "2025-01-10" (VText "invalid")]) three_times
                (raw_config "daily_basic" "turnover_rate") "000001.SZ" 739261))))
             (observed "2025-01-10" (VText "invalid")) []); try reflexivity.
    intros q. discriminate.
  - apply (proj2 (proj2 (proj2 (proj2
             (calculate_never_raises
                (serving [observed "2025-01-10" VNull; observed "2025-01-09" VNull])
                three_times (ma_config 5) "000001.SZ" 739261))))
             [observed "2025-01-10" VNull; observed "2025-01-09" VNull]);
      try reflexivity.
    intros o q [<- | [<- | []]]; discriminate.
Defined.

(** ** The moving average *)

















(** *** The sorted sequence does not depend on the order of arrival *)


Lemma same_point_sym (a b : Date * Q) : same_point a b -> same_point b a.
Proof. intros [H1 H2]. split; now symmetry. Qed.






















End TurnoverRateFacts.

(** * Further properties of the service *)

(** ** Lookups in a table that is being changed *)

Lemma find_app_first {A : Type} (p : A -> bool) (l l' : list A) (x : A) :
  find p l = Some x -> find p (l ++ l') = Some x.
Proof.
  induction l as [|y l IH]; simpl; [discriminate|].
  destruct (p y); [trivial | exact IH].
Qed.

Lemma find_app_second {A : Type} (p : A -> bool) (l l' : list A) :
  find p l = None -> find p (l ++ l') = find p l'.
Proof.
  induction l as [|y l IH]; simpl; [trivial|].
  destruct (p y); [discriminate | exact IH].
Qed.

Lemma find_update_first_same {A : Type} (p : A -> bool) (g : A -> A) (l : list A) :
  (forall x, p (g x) = p x) ->
  find p (update_first p g l) = option_map g (find p l).
Proof.
  intros Hg. induction l as [|x l IH]; simpl; [reflexivity|].
  destruct (p x) eqn:Hx; simpl.
  - now rewrite Hg, Hx.
  - now rewrite Hx.
Qed.

Lemma find_update_first_other {A : Type} (p q : A -> bool) (g : A -> A) (l : list A) :
  (forall x, q (g x) = q x) -> (forall x, p x = true -> q x = false) ->
  find q (update_first p g l) = find q l.
Proof.
  intros Hg Hpq. induction l as [|x l IH]; simpl; [reflexivity|].
  destruct (p x) eqn:Hx; simpl.
  - now rewrite Hg, (Hpq x Hx).
  - now rewrite IH.
Qed.

Lemma find_filter_out {A : Type} (p : A -> bool) (l : list A) :
  find p (filter (fun x => negb (p x)) l) = None.
Proof.
  induction l as [|x l IH]; simpl; [reflexivity|].
  destruct (p x) eqn:Hx; simpl; [exact IH | now rewrite Hx].
Qed.

Lemma find_filter_keep {A : Type} (q r : A -> bool) (l : list A) :
  (forall x, q x = true -> r x = true) ->
  find q (filter r l) = find q l.
Proof.
  intros Hqr. induction l as [|x l IH]; simpl; [reflexivity|].
  destruct (r x) eqn:Hr; simpl.
  - now rewrite IH.
  - destruct (q x) eqn:Hq; [|exact IH].
    rewrite (Hqr x Hq) in Hr. discriminate.
Qed.

Lemma update_first_map {A B : Type} (f : A -> B) (p : A -> bool) (g : A -> A)
  (l : list A) :
  (forall x, f (g x) = f x) -> map f (update_first p g l) = map f l.
Proof.
  intros Hg. induction l as [|x l IH]; simpl; [reflexivity|].
  destruct (p x); simpl; [now rewrite Hg | now rewrite IH].
Qed.

Lemma filter_none {A : Type} (r : A -> bool) (l : list A) :
  (forall x, In x l -> r x = true) -> filter r l = l.
Proof.
  induction l as [|x l IH]; simpl; intros H; [reflexivity|].
  rewrite (H x (or_introl eq_refl)). f_equal. apply IH. auto.
Qed.

Lemma get_factor_config_found (db : Database) (f : Z) (row : FactorConfig) :
  get_factor_config_by_factor_id db f = Return row ->
  find (fun c => fc_factor_id c =? f) (configs db) = Some row /\ fc_factor_id row = f.
Proof.
  unfold get_factor_config_by_factor_id.
  destruct (find _ (configs db)) as [c|] eqn:Hf; [|discriminate].
  intros H. injection H as <-. split; [reflexivity|].
  apply find_some in Hf. destruct Hf as [_ Hk]. now apply Z.eqb_eq.
Qed.

Lemma get_factor_definition_found (db : Database) (f : Z) (d : FactorDefinition) :
  get_factor_definition db f = Return d ->
  find (fun x => fd_id x =? f) (definitions db) = Some d /\ fd_id d = f.
Proof.
  unfold get_factor_definition.
  destruct (find _ (definitions db)) as [c|] eqn:Hf; [|discriminate].
  intros H. injection H as <-. split; [reflexivity|].
  apply find_some in Hf. destruct Hf as [_ Hk]. now apply Z.eqb_eq.
Qed.

Lemma other_key (f g : Z) : g <> f -> forall k, (k =? f) = true -> (k =? g) = false.
Proof.
  intros Hne k Hk. apply Z.eqb_eq in Hk. apply Z.eqb_neq. congruence.
Qed.

(** ** Configurations: create, update, delete *)

(** X1: [create_factor_config] on a factor without configuration row, with
    mappings that pass the validation, stores and commits a row holding the
    configuration; [get_factor_config_by_factor_id] then returns that row,
    the rows of the other factors are found as before, and a second creation
    for the same factor raises [ValueError] and changes nothing. *)
Theorem create_factor_config_roundtrip (s : Session) (f : Z) (config : Config)
  (created_by : option string) (d : FactorDefinition) :
  get_factor_definition (working s) f = Return d ->
  (forall c, In c (configs (working s)) -> fc_factor_id c <> f) ->
  validate_mappings (working s) (get_mappings config) = Return tt ->
  exists row s',
    create_factor_config f config created_by s = (Return row, s')
    /\ fc_factor_id row = f
    /\ fc_config row = config
    /\ stored s' = working s'
    /\ get_factor_config_by_factor_id (working s') f = Return row
    /\ (forall g, g <> f ->
          get_factor_config_by_factor_id (working s') g
          = get_factor_config_by_factor_id (working s) g)
    /\ (forall config' by',
          create_factor_config f config' by' s'
          = (Raise (ValueError (ConfigExists f)), s')).
Proof.
  intros Hd Hfree Hv.
  assert (Hnone : find (fun c => fc_factor_id c =? f) (configs (working s)) = None).
  { apply find_nothing. intros c Hc. apply Z.eqb_neq. auto. }
  unfold create_factor_config. run_session. rewrite Hd. simpl.
  rewrite Hnone. simpl. rewrite Hv. simpl.
  eexists. eexists. split; [reflexivity|].
  repeat split.
  - unfold get_factor_config_by_factor_id. simpl.
    rewrite (find_app_second _ _ _ Hnone). simpl. now rewrite Z.eqb_refl.
  - intros g Hg. unfold get_factor_config_by_factor_id. simpl.
    destruct (find (fun c => fc_factor_id c =? g) (configs (working s))) as [c|] eqn:Hc.
    + now rewrite (find_app_first _ _ _ _ Hc).
    + rewrite (find_app_second _ _ _ Hc). simpl.
      assert (Hfg : (f =? g) = false) by (apply Z.eqb_neq; congruence).
      now rewrite Hfg.
  - intros config' by'. unfold get_factor_definition in *. simpl.
    destruct (find _ (definitions (working s))); [|discriminate]. simpl.
    rewrite (find_app_second _ _ _ Hnone). simpl. now rewrite Z.eqb_refl.
Qed.


(** X3: [delete_factor_config_by_factor_id] removes the configuration of the
    factor and commits: the lookup then raises [NotFoundError] while the
    other factors keep their rows; when the factor has no row it raises
    [NotFoundError] and leaves the session as it was. *)
Theorem delete_factor_config_by_factor_id_spec (s : Session) (f : Z) :
  (forall row,
      get_factor_config_by_factor_id (working s) f = Return row ->
      exists s',
        delete_factor_config_by_factor_id f s = (Return true, s')
        /\ stored s' = working s'
        /\ get_factor_config_by_factor_id (working s') f
           = Raise (NotFoundError FactorConfigEntity f)
        /\ (forall g, g <> f ->
              get_factor_config_by_factor_id (working s') g
              = get_factor_config_by_factor_id (working s) g)
        /\ models (working s') = models (working s)
        /\ definitions (working s') = definitions (working s))
  /\ (forall e,
        get_factor_config_by_factor_id (working s) f = Raise e ->
        delete_factor_config_by_factor_id f s = (Raise e, s)).
Proof.
  split.
  - intros row Hrow. destruct (get_factor_config_found _ _ _ Hrow) as [Hfind Hf].
    unfold delete_factor_config_by_factor_id. run_session. rewrite Hrow. simpl.
    rewrite Hf. eexists. split; [reflexivity|]. repeat split.
    + unfold get_factor_config_by_factor_id. simpl.
      now rewrite (find_filter_out (fun c => fc_factor_id c =? f)).
    + intros g Hg. unfold get_factor_config_by_factor_id. simpl.
      rewrite find_filter_keep; [reflexivity|].
      intros c Hc. apply Z.eqb_eq in Hc. apply negb_true_iff, Z.eqb_neq. congruence.
  - intros e He. unfold delete_factor_config_by_factor_id. run_session.
    now rewrite He.
Qed.

(** X4: creating the configuration of a factor that had none and deleting it
    again gives back the database one started from. *)
Theorem create_then_delete_factor_config (s : Session) (f : Z) (config : Config)
  (created_by : option string) (row : FactorConfig) (s1 : Session) :
  (forall c, In c (configs (working s)) -> fc_factor_id c <> f) ->
  create_factor_config f config created_by s = (Return row, s1) ->
  exists s2,
    delete_factor_config_by_factor_id f s1 = (Return true, s2)
    /\ working s2 = working s
    /\ stored s2 = working s.
Proof.
  intros Hfree. 
  assert (Hnone : find (fun c => fc_factor_id c =? f) (configs (working s)) = None).
  { apply find_nothing. intros c Hc. apply Z.eqb_neq. auto. }
  unfold create_factor_config. run_session.
  destruct (get_factor_definition (working s) f); simpl; [|discriminate].
  rewrite Hnone. simpl.
  destruct (validate_mappings (working s) (get_mappings config)); simpl; [|discriminate].
  intros H. injection H as <- <-.
  unfold delete_factor_config_by_factor_id, get_factor_config_by_factor_id.
  run_session. rewrite (find_app_second _ _ _ Hnone). simpl.
  rewrite Z.eqb_refl. simpl.
  eexists. split; [reflexivity|].
  assert (Hsame : filter (fun c => negb (fc_factor_id c =? f))
                    (configs (working s) ++
                     [{| fc_factor_id := f; fc_model_id := None; fc_codes_list := [];
                         fc_enabled := true; fc_config := config;
                         fc_created_by := created_by; fc_updated_by := created_by |}])
                  = configs (working s)).
  { rewrite filter_app. simpl. rewrite Z.eqb_refl. simpl. rewrite app_nil_r.
    apply filter_none. intros c Hc. apply negb_true_iff, Z.eqb_neq. auto. }
  simpl. unfold set_configs. simpl. rewrite Hsame.
  destruct s as [[ds ms cs] st]. split; reflexivity.
Qed.

(** ** Validation and resolution *)

Lemma validate_mappings_names (db : Database) (ms : list Mapping) :
  validate_mappings db ms = Return tt -> forall m, In m ms -> names_model db m.
Proof.
  unfold validate_mappings. intros H.
  destruct (check_models db ms) as [[]|e] eqn:Hc; [|discriminate].
  now apply check_models_ok.
Qed.

Lemma model_of_mapping_named (db : Database) (f : Z) (m : Mapping) :
  names_model db m -> exists model, model_of_mapping db f m = Return (Some model).
Proof.
  intros [mid [model [Hid [Hnz Hget]]]]. unfold model_of_mapping.
  rewrite Hid. apply Z.eqb_neq in Hnz. rewrite Hnz. simpl. rewrite Hget. simpl. eauto.
Qed.

(** X5: a stored configuration whose mappings pass the write-time validation
    never makes the resolver raise: for every code [get_model_for_code]
    returns, with no model when the configuration is disabled and with a
    model as soon as some mapping lists the code or is a default one. *)
Theorem validated_config_resolves (db : Database) (f : Z) (d : FactorDefinition)
  (row : FactorConfig) (code : string) :
  get_factor_definition db f = Return d ->
  config_of db d = Some row ->
  validate_mappings db (get_mappings (fc_config row)) = Return tt ->
  exists r,
    get_model_for_code db f code = Return r
    /\ (get_enabled (fc_config row) = false -> r = None)
    /\ (get_enabled (fc_config row) = true ->
        (exists m, In m (get_mappings (fc_config row))
                   /\ (code_listed code m \/ codes_empty m)) ->
        exists model, r = Some model).
Proof.
  intros Hd Hrow Hv. pose proof (validate_mappings_names _ _ Hv) as Hnames.
  destruct (get_enabled (fc_config row)) eqn:Hen.
  - rewrite (get_model_for_code_enabled db f d row code Hd Hrow Hen).
    destruct (find (specific_for code) _) as [m|] eqn:Hs.
    + apply find_some in Hs. destruct Hs as [Hin _].
      destruct (model_of_mapping_named db f m (Hnames m Hin)) as [model Hm].
      rewrite Hm. eexists. split; [reflexivity|]. split; [discriminate | eauto].
    + destruct (find is_default_mapping _) as [m|] eqn:Hdm.
      * apply find_some in Hdm. destruct Hdm as [Hin _].
        destruct (model_of_mapping_named db f m (Hnames m Hin)) as [model Hm].
        rewrite Hm. eexists. split; [reflexivity|]. split; [discriminate | eauto].
      * eexists. split; [reflexivity|]. split; [discriminate|].
        intros _ [m [Hin [Hl | He]]]; exfalso.
        -- apply (find_none _ _ Hs) in Hin.
           apply specific_for_spec in Hl. congruence.
        -- apply (find_none _ _ Hdm) in Hin.
           apply is_default_mapping_spec in He. congruence.
  - exists None. split; [|split; [reflexivity | discriminate]].
    unfold get_model_for_code, get_config. rewrite Hd. simpl. rewrite Hrow. simpl.
    now rewrite Hen.
Qed.

(** X6: [delete_factor_model] does not look at the configurations: it leaves
    them as they are, and a code that resolved to the deleted model through
    its mapping makes [get_model_for_code] raise [NotFoundError]
    afterwards. *)
Theorem delete_factor_model_leaves_stale_mapping (s : Session) (k f : Z)
  (model : FactorModel) (d : FactorDefinition) (row : FactorConfig) (code : string)
  (pre : list Mapping) (mapping : Mapping) (post : list Mapping) :
  get_factor_model (working s) k = Return model ->
  get_factor_definition (working s) f = Return d ->
  config_of (working s) d = Some row ->
  get_enabled (fc_config row) = true ->
  get_mappings (fc_config row) = (pre ++ mapping :: post)%list ->
  (forall m, In m pre -> ~ code_listed code m) ->
  code_listed code mapping ->
  model_id mapping = Some k ->
  k <> 0 ->
  get_model_for_code (working s) f code = Return (Some model)
  /\ exists s',
       delete_factor_model k s = (Return true, s')
       /\ configs (working s') = configs (working s)
       /\ get_model_for_code (working s') f code
          = Raise (NotFoundError FactorModelEntity k).
Proof.
  intros Hget Hd Hrow Hen Hms Hpre Hm Hmid Hnz.
  assert (Hsel : find (specific_for code) (get_mappings (fc_config row)) = Some mapping).
  { rewrite Hms. apply find_first.
    - intros m Hin. apply (not_true_false _ _ (specific_for_spec code m)). auto.
    - now apply specific_for_spec. }
  pose proof Hnz as Hnzb. apply Z.eqb_neq in Hnzb.
  split.
  - rewrite (get_model_for_code_enabled _ f d row code Hd Hrow Hen), Hsel.
    unfold model_of_mapping. rewrite Hmid, Hnzb. simpl. now rewrite Hget.
  - destruct (get_factor_model_found _ _ _ Hget) as [_ Hk].
    unfold delete_factor_model. run_session. rewrite Hget. simpl. rewrite Hk.
    eexists. split; [reflexivity|]. split; [reflexivity|].
    rewrite (get_model_for_code_enabled _ f d row code); try assumption.
    rewrite Hsel. unfold model_of_mapping. rewrite Hmid, Hnzb. simpl.
    unfold get_factor_model. simpl.
    now rewrite (find_filter_out (fun m => fm_id m =? k)).
Qed.

Lemma get_model_for_code_same_tables (db db' : Database) :
  models db' = models db -> configs db' = configs db ->
  (forall f, option_map fd_id (find (fun x => fd_id x =? f) (definitions db'))
             = option_map fd_id (find (fun x => fd_id x =? f) (definitions db))) ->
  forall f code, get_model_for_code db' f code = get_model_for_code db f code.
Proof.
  intros Hm Hc Hd f code.
  unfold get_model_for_code, get_factor_definition. specialize (Hd f).
  destruct (find _ (definitions db')) as [d'|], (find _ (definitions db)) as [d|];
    simpl in Hd; try discriminate; [|reflexivity].
  injection Hd as Hid. simpl.
  unfold get_config, config_of. rewrite Hc, Hid.
  destruct (find _ (configs db)) as [row|]; simpl; [|reflexivity].
  destruct (negb (get_enabled (fc_config row))); [reflexivity|].
  unfold model_of_mapping, get_factor_model, get_default_factor_model. rewrite Hm.
  reflexivity.
Qed.

(** ** Models: create, delete, update *)

Lemma next_model_id_above (l : list FactorModel) (m : FactorModel) :
  In m l -> fm_id m < next_model_id l.
Proof.
  unfold next_model_id. induction l as [|x l IH]; [contradiction|].
  cbn [map fold_right]. intros [<- | Hin]; [lia|]. specialize (IH Hin). lia.
Qed.

Lemma next_model_id_fresh (l : list FactorModel) :
  find (fun m => fm_id m =? next_model_id l) l = None.
Proof.
  apply find_nothing. intros m Hin. apply Z.eqb_neq.
  pose proof (next_model_id_above l m Hin). lia.
Qed.

Lemma next_model_id_clear (f : Z) (l : list FactorModel) :
  next_model_id (clear_defaults f l) = next_model_id l.
Proof.
  unfold next_model_id, clear_defaults. rewrite map_map. do 2 f_equal.
  apply map_ext. intros m. destruct (_ && _); reflexivity.
Qed.

(** X8: [create_factor_model] for an existing factor gives the new model a
    key no model had, stores and commits it, and [get_factor_model] finds it;
    every model found before is still found under its key, with its factor
    and its [enabled], and unchanged altogether when [is_default] is false.
    For a missing factor it raises and changes nothing. *)
Theorem create_factor_model_roundtrip (s : Session) (f : Z) (n c : string)
  (j : option string) (is_default enabled : bool) :
  (forall d,
      get_factor_definition (working s) f = Return d ->
      exists model s',
        create_factor_model f n c j is_default enabled s = (Return model, s')
        /\ fm_factor_id model = f
        /\ fm_is_default model = is_default
        /\ get_factor_model (working s) (fm_id model)
           = Raise (NotFoundError FactorModelEntity (fm_id model))
        /\ get_factor_model (working s') (fm_id model) = Return model
        /\ stored s' = working s'
        /\ (forall k m,
              get_factor_model (working s) k = Return m ->
              exists m', get_factor_model (working s') k = Return m'
                         /\ fm_id m' = fm_id m
                         /\ fm_factor_id m' = fm_factor_id m
                         /\ fm_enabled m' = fm_enabled m
                         /\ (is_default = false -> m' = m)))
  /\ (forall e,
        get_factor_definition (working s) f = Raise e ->
        create_factor_model f n c j is_default enabled s = (Raise e, s)).
Proof.
  split.
  - intros d Hd. unfold create_factor_model. run_session. rewrite Hd. simpl.
    destruct is_default; simpl; eexists; eexists; (split; [reflexivity|]); simpl;
      repeat split.
    + unfold get_factor_model. rewrite next_model_id_clear.
      now rewrite next_model_id_fresh.
    + unfold get_factor_model. simpl.
      rewrite find_app_second by apply next_model_id_fresh.
      simpl. now rewrite Z.eqb_refl.
    + intros k m Hm. destruct (get_factor_model_found _ _ _ Hm) as [Hfind Hk].
      unfold get_factor_model. simpl.
      pose proof (find_clear_defaults k f (models (working s))) as Hc.
      rewrite Hfind in Hc. simpl in Hc.
      rewrite (find_app_first _ _ _ _ Hc).
      eexists. split; [reflexivity|].
      destruct (is_default_of f m); repeat split; discriminate.
    + unfold get_factor_model. now rewrite next_model_id_fresh.
    + unfold get_factor_model. simpl.
      rewrite find_app_second by apply next_model_id_fresh.
      simpl. now rewrite Z.eqb_refl.
    + intros k m Hm. destruct (get_factor_model_found _ _ _ Hm) as [Hfind Hk].
      unfold get_factor_model. simpl.
      rewrite (find_app_first _ _ _ _ Hfind).
      eexists. split; [reflexivity|]. repeat split.
  - intros e He. unfold create_factor_model. run_session. now rewrite He.
Qed.

(** X9: [delete_factor_model] removes the model and commits:
    [get_factor_model] then raises [NotFoundError] for its key and answers as
    before for every other key; configurations and definitions are
    untouched.  For a missing model it raises and changes nothing. *)
Theorem delete_factor_model_spec (s : Session) (k : Z) :
  (forall m,
      get_factor_model (working s) k = Return m ->
      exists s',
        delete_factor_model k s = (Return true, s')
        /\ stored s' = working s'
        /\ get_factor_model (working s') k = Raise (NotFoundError FactorModelEntity k)
        /\ (forall k', k' <> k ->
              get_factor_model (working s') k' = get_factor_model (working s) k')
        /\ configs (working s') = configs (working s)
        /\ definitions (working s') = definitions (working s))
  /\ (forall e,
        get_factor_model (working s) k = Raise e ->
        delete_factor_model k s = (Raise e, s)).
Proof.
  split.
  - intros m Hm. destruct (get_factor_model_found _ _ _ Hm) as [Hfind Hk].
    unfold delete_factor_model. run_session. rewrite Hm. simpl. rewrite Hk.
    eexists. split; [reflexivity|]. repeat split.
    + unfold get_factor_model. simpl.
      now rewrite (find_filter_out (fun x => fm_id x =? k)).
    + intros k' Hne. unfold get_factor_model. simpl.
      rewrite find_filter_keep; [reflexivity|].
      intros x Hx. apply Z.eqb_eq in Hx. apply negb_true_iff, Z.eqb_neq. congruence.
  - intros e He. unfold delete_factor_model. run_session. now rewrite He.
Qed.

Lemma clear_defaults_ids (f : Z) (l : list FactorModel) :
  map fm_id (clear_defaults f l) = map fm_id l
  /\ map fm_factor_id (clear_defaults f l) = map fm_factor_id l
  /\ map fm_enabled (clear_defaults f l) = map fm_enabled l.
Proof.
  unfold clear_defaults. rewrite !map_map.
  repeat split; apply map_ext; intros m; destruct (_ && _); reflexivity.
Qed.

(** X10: [update_factor_model] neither adds nor removes a model row, nor
    changes the key or the factor of any row, and touches neither the
    configurations nor the definitions; for a missing model it raises and
    changes nothing. *)
Theorem update_factor_model_keeps_rows (s : Session) (k : Z) (n c j : option string)
  (d e : option bool) :
  map fm_id (models (working (snd (update_factor_model k n c j d e s))))
  = map fm_id (models (working s))
  /\ map fm_factor_id (models (working (snd (update_factor_model k n c j d e s))))
     = map fm_factor_id (models (working s))
  /\ configs (working (snd (update_factor_model k n c j d e s))) = configs (working s)
  /\ definitions (working (snd (update_factor_model k n c j d e s)))
     = definitions (working s)
  /\ (forall x, get_factor_model (working s) k = Raise x ->
                update_factor_model k n c j d e s = (Raise x, s)).
Proof.
  unfold update_factor_model, assign_model. run_session.
  destruct (get_factor_model (working s) k) as [model|x] eqn:Hget; simpl.
  2:{ repeat split. intros y H. now injection H as <-. }
  destruct n, c, j, e, d as [[|]|]; run_session; unfold set_models; simpl;
    repeat split; try discriminate;
    repeat (first [ rewrite update_first_map by reflexivity
                  | rewrite (proj1 (clear_defaults_ids _ _))
                  | rewrite (proj1 (proj2 (clear_defaults_ids _ _))) ]);
    reflexivity.
Qed.

(** ** Definitions: create and update *)

Lemma next_definition_id_fresh (l : list FactorDefinition) :
  find (fun d => fd_id d =? next_definition_id l) l = None.
Proof.
  apply find_nothing. intros d Hin. apply Z.eqb_neq.
  assert (H : fd_id d < next_definition_id l).
  { unfold next_definition_id. induction l as [|x l IH]; [contradiction|].
    cbn [map fold_right]. destruct Hin as [<- | Hin]; [lia|].
    specialize (IH Hin). lia. }
  lia.
Qed.

(** X11: [create_factor_definition] refuses a name that is taken
    ([ValueError], nothing changed); otherwise it stores and commits the
    definition, with the factor name as column name when none or an empty
    one is given, the definition is found by name and by key, and the names
    stay pairwise distinct if they were. *)
Theorem create_factor_definition_spec (s : Session) (factor_name cn_name : string)
  (en_name column_name description : option string) (enabled : bool)
  (factor_config : option Config) :
  (forall d,
      get_factor_definition_by_name (working s) factor_name = Some d ->
      create_factor_definition factor_name cn_name en_name column_name description
        enabled factor_config s
      = (Raise (ValueError NameExists), s))
  /\ (get_factor_definition_by_name (working s) factor_name = None ->
      exists def s',
        create_factor_definition factor_name cn_name en_name column_name description
          enabled factor_config s
        = (Return def, s')
        /\ fd_factor_name def = factor_name
        /\ fd_column_name def = column_or_name column_name factor_name
        /\ stored s' = working s'
        /\ get_factor_definition_by_name (working s') factor_name = Some def
        /\ get_factor_definition (working s') (fd_id def) = Return def
        /\ (NoDup (map fd_factor_name (definitions (working s))) ->
            NoDup (map fd_factor_name (definitions (working s'))))).
Proof.
  unfold create_factor_definition. run_session. split.
  - intros d Hd. now rewrite Hd.
  - intros Hnone. rewrite Hnone. simpl.
    eexists. eexists. split; [reflexivity|]. simpl. repeat split.
    + unfold get_factor_definition_by_name in *. simpl.
      rewrite (find_app_second _ _ _ Hnone). simpl. now rewrite String.eqb_refl.
    + unfold get_factor_definition. simpl.
      rewrite find_app_second by apply next_definition_id_fresh.
      simpl. now rewrite Z.eqb_refl.
    + intros Hnd. rewrite map_app. simpl.
      apply NoDup_app; [assumption | repeat constructor; intros [] |].
      intros x Hx [<- | []]. apply in_map_iff in Hx. destruct Hx as [d [Hname Hin]].
      unfold get_factor_definition_by_name in Hnone.
      apply (find_none _ _ Hnone) in Hin. rewrite Hname, String.eqb_refl in Hin.
      discriminate.
Qed.

Lemma first_id_update (f g : Z) (upd : FactorDefinition -> FactorDefinition)
  (l : list FactorDefinition) :
  (forall x, fd_id (upd x) = fd_id x) ->
  option_map fd_id (find (fun x => fd_id x =? g)
                      (update_first (fun x => fd_id x =? f) upd l))
  = option_map fd_id (find (fun x => fd_id x =? g) l).
Proof.
  intros Hupd. destruct (Z.eq_dec g f) as [->|Hne].
  - rewrite find_update_first_same by (intros x; now rewrite Hupd).
    destruct (find _ l); simpl; [now rewrite Hupd | reflexivity].
  - rewrite find_update_first_other; [reflexivity | intros x; now rewrite Hupd |].
    intros x. apply other_key. exact Hne.
Qed.

(** X12: [update_factor_definition] changes neither the keys nor the names of
    the definitions; called without [factor_config], it leaves the resolver
    answering as before for every factor and code, also when it disables the
    definition; for a missing definition it raises and changes nothing. *)
Theorem update_factor_definition_keeps_identity (s : Session) (f : Z)
  (cn_name en_name column_name description : option string)
  (enabled : option bool) (factor_config : option Config) :
  map fd_id (definitions (working (snd (update_factor_definition f cn_name en_name
                                         column_name description enabled factor_config s))))
  = map fd_id (definitions (working s))
  /\ map fd_factor_name
       (definitions (working (snd (update_factor_definition f cn_name en_name
                                     column_name description enabled factor_config s))))
     = map fd_factor_name (definitions (working s))
  /\ (forall g code,
        get_model_for_code
          (working (snd (update_factor_definition f cn_name en_name column_name
                           description enabled None s))) g code
        = get_model_for_code (working s) g code)
  /\ (forall g,
        models (working (snd (update_factor_definition f cn_name en_name column_name
                                description enabled None s)))
        = models (working s)
        /\ get_factor_config_by_factor_id
             (working (snd (update_factor_definition f cn_name en_name column_name
                              description enabled None s))) g
           = get_factor_config_by_factor_id (working s) g)
  /\ (forall x, get_factor_definition (working s) f = Raise x ->
                update_factor_definition f cn_name en_name column_name description
                  enabled factor_config s = (Raise x, s)).
Proof.
  unfold update_factor_definition, assign_definition. run_session.
  destruct (get_factor_definition (working s) f) as [d|x] eqn:Hget; simpl.
  2:{ repeat split. intros y H. now injection H as <-. }
  destruct cn_name, column_name, enabled, factor_config; run_session;
    unfold set_definitions; simpl; repeat split; try discriminate;
    try (repeat rewrite update_first_map by reflexivity; reflexivity);
    apply get_model_for_code_same_tables; try reflexivity; simpl; intros g;
    repeat rewrite first_id_update by reflexivity; reflexivity.
Qed.

(** * Properties of the endpoints *)

Ltac run_endpoint :=
  unfold Api.requires_admin, Api.respond, Api.except_not_found,
    FactorService.get_factor_definition, FactorService.get_factor_config,
    FactorService.get_factor_config_by_factor_id,
    FactorService.update_factor_config,
    FactorService.update_factor_config_by_factor_id,
    FactorService.delete_factor_config_by_factor_id,
    update_factor_config, update_factor_config_by_factor_id,
    delete_factor_config_by_factor_id, assign_definition;
  run_session.

Lemma validate_mappings_raises (db : Database) (ms : list Mapping) (e : Exn) :
  validate_mappings db ms = Raise e -> e <> AttributeError /\ e <> IntegrityError.
Proof.
  unfold validate_mappings. intros H.
  assert (Hc : forall x, check_models db ms = Raise x ->
                         x <> AttributeError /\ x <> IntegrityError).
  { clear H. induction ms as [|m ms IH]; simpl; intros x Hc; [discriminate|].
    destruct (model_id m) as [mid|]; [|injection Hc as <-; split; discriminate].
    destruct (negb (mid =? 0)); [|injection Hc as <-; split; discriminate].
    unfold get_factor_model in Hc.
    destruct (find _ (models db)); simpl in Hc;
      [auto | injection Hc as <-; split; discriminate]. }
  destruct (check_models db ms) as [[]|x]; simpl in H.
  - destruct (default_count ms >? 1); [injection H as <-; split|]; discriminate.
  - injection H as <-. now apply Hc.
Qed.

(** X13: the deprecated [PUT /definitions/{factor_id}/config]: without admin
    rights it answers 403; whenever it answers an error the session is as it
    was; when it answers a configuration, that is the one sent, its mappings
    passed the validation, the write is committed, and the deprecated [GET]
    of the same factor answers the same configuration. *)
Theorem api_update_factor_config_effects (admin : bool) (username : string)
  (f : Z) (factor_config : Config) (s : Session) :
  (admin = false ->
   Api.update_factor_config admin username f factor_config s
   = (Api.HTTPException 403 None, s))
  /\ (forall status detail s',
        Api.update_factor_config admin username f factor_config s
        = (Api.HTTPException status detail, s') ->
        s' = s)
  /\ (forall c s',
        Api.update_factor_config admin username f factor_config s = (Api.Ok c, s') ->
        c = factor_config
        /\ validate_mappings (working s) (get_mappings factor_config) = Return tt
        /\ stored s' = working s'
        /\ models (working s') = models (working s)
        /\ Api.get_factor_config f s' = (Api.Ok factor_config, s')).
Proof.
  unfold Api.update_factor_config, Api.get_factor_config. run_endpoint.
  destruct admin; [|repeat split; intros; congruence].
  split; [discriminate|].
  destruct (get_factor_config_by_factor_id (working s) f) as [row|e] eqn:Hrow; simpl.
  - destruct (get_factor_config_found _ _ _ Hrow) as [Hfind Hf].
    destruct (validate_mappings (working s) (get_mappings factor_config))
      as [[]|e] eqn:Hv; simpl.
    + split; [discriminate|]. intros c s' H. injection H as <- <-. simpl.
      repeat split. unfold get_factor_config_by_factor_id. simpl. rewrite Hf.
      rewrite find_update_first_same by reflexivity. rewrite Hfind. reflexivity.
    + destruct e as [what key|why| |]; simpl.
      * destruct (get_factor_definition (working s) f); simpl;
          [rewrite Hv; simpl|]; split; intros; congruence.
      * split; intros; congruence.
      * split; intros; congruence.
      * split; intros; congruence.
  - unfold get_factor_config_by_factor_id in Hrow.
    destruct (find _ (configs (working s))) as [c|] eqn:Hnone; [discriminate|].
    injection Hrow as <-. simpl.
    destruct (get_factor_definition (working s) f) as [d|e] eqn:Hd; simpl.
    + destruct (get_factor_definition_found _ _ _ Hd) as [Hfind Hid].
      destruct (validate_mappings (working s) (get_mappings factor_config))
        as [[]|e] eqn:Hv; simpl.
      * split; [discriminate|]. intros c s' H. injection H as <- <-. simpl.
        repeat split. unfold get_factor_config_by_factor_id. simpl. rewrite Hnone.
        simpl. unfold get_factor_config, get_factor_definition. simpl. rewrite Hid.
        rewrite find_update_first_same by reflexivity. rewrite Hfind. reflexivity.
      * split; intros; congruence.
    + split; intros; congruence.
Qed.

(** X14: the status of the deprecated [PUT /definitions/{factor_id}/config]
    for an admin and a body of the documented format (the keys [enabled] and
    [mappings], where present, hold a boolean and a list of mappings): it
    succeeds when the mappings are valid and the factor has a configuration
    row or a definition; a [ValueError] of the validation is a 400, a missing
    model a 404, a factor with neither row nor definition a 404; and the
    service raises nothing else on such a body, so that the 500 of the
    closing [except Exception] is not among its answers. *)
Theorem api_update_factor_config_status (username : string) (f : Z)
  (factor_config : Config) (s : Session) :
  ((exists row, get_factor_config_by_factor_id (working s) f = Return row)
   \/ (exists d, get_factor_definition (working s) f = Return d) ->
   validate_mappings (working s) (get_mappings factor_config) = Return tt ->
   exists s', Api.update_factor_config true username f factor_config s
              = (Api.Ok factor_config, s'))
  /\ (forall why,
        (exists row, get_factor_config_by_factor_id (working s) f = Return row)
        \/ (exists d, get_factor_definition (working s) f = Return d) ->
        validate_mappings (working s) (get_mappings factor_config)
        = Raise (ValueError why) ->
        Api.update_factor_config true username f factor_config s
        = (Api.HTTPException 400 (Some (ValueError why)), s))
  /\ (forall what key,
        validate_mappings (working s) (get_mappings factor_config)
        = Raise (NotFoundError what key) ->
        exists detail,
          Api.update_factor_config true username f factor_config s
          = (Api.HTTPException 404 detail, s))
  /\ (forall e e',
        get_factor_config_by_factor_id (working s) f = Raise e ->
        get_factor_definition (working s) f = Raise e' ->
        Api.update_factor_config true username f factor_config s
        = (Api.HTTPException 404 (Some e'), s))
  /\ (forall status detail s',
        Api.update_factor_config true username f factor_config s
        = (Api.HTTPException status detail, s') ->
        status = 400 \/ status = 404).
Proof.
  pose proof (validate_mappings_raises (working s) (get_mappings factor_config)) as Hva.
  unfold Api.update_factor_config. run_endpoint.
  assert (Hnf : forall e, get_factor_config_by_factor_id (working s) f = Raise e ->
                          e = NotFoundError FactorConfigEntity f).
  { unfold get_factor_config_by_factor_id.
    destruct (find _ (configs (working s))); intros e H; [discriminate|].
    now injection H as <-. }
  assert (Hnd : forall e, get_factor_definition (working s) f = Raise e ->
                          e = NotFoundError FactorDefinitionEntity f).
  { unfold get_factor_definition.
    destruct (find _ (definitions (working s))); intros e H; [discriminate|].
    now injection H as <-. }
  repeat split.
  - intros Hex Hv.
    destruct (get_factor_config_by_factor_id (working s) f) as [row|e] eqn:Hrow; simpl.
    + rewrite Hv. simpl. eauto.
    + rewrite (Hnf e eq_refl). destruct Hex as [[row H] | [d Hd]]; [discriminate|].
      rewrite Hd. simpl. rewrite Hv. simpl. eauto.
  - intros why Hex Hv.
    destruct (get_factor_config_by_factor_id (working s) f) as [row|e] eqn:Hrow; simpl.
    + rewrite Hv. reflexivity.
    + rewrite (Hnf e eq_refl). destruct Hex as [[row H] | [d Hd]]; [discriminate|].
      rewrite Hd. simpl. rewrite Hv. reflexivity.
  - intros what key Hv.
    destruct (get_factor_config_by_factor_id (working s) f) as [row|e] eqn:Hrow; simpl.
    + rewrite Hv. simpl.
      destruct (get_factor_definition (working s) f) as [d|e'] eqn:Hd; simpl.
      * rewrite Hv. simpl. eauto.
      * rewrite (Hnd e' eq_refl). simpl. eauto.
    + rewrite (Hnf e eq_refl).
      destruct (get_factor_definition (working s) f) as [d|e'] eqn:Hd; simpl.
      * rewrite Hv. simpl. eauto.
      * rewrite (Hnd e' eq_refl). simpl. eauto.
  - intros e e' He He'. rewrite He, (Hnf e He). rewrite He', (Hnd e' He'). reflexivity.
  - intros status detail s'.
    destruct (get_factor_config_by_factor_id (working s) f) as [row|e] eqn:Hrow; simpl.
    + destruct (validate_mappings (working s) (get_mappings factor_config))
        as [[]|e] eqn:Hv; simpl; [discriminate|].
      destruct e as [what key|why| |]; simpl.
      * destruct (get_factor_definition (working s) f) as [d|e'] eqn:Hd; simpl.
        -- rewrite Hv. simpl. intros H. injection H as <- _ _. now right.
        -- rewrite (Hnd e' eq_refl). simpl. intros H. injection H as <- _ _. now right.
      * intros H. injection H as <- _ _. now left.
      * exfalso. now apply (proj1 (Hva AttributeError eq_refl)).
      * exfalso. now apply (proj2 (Hva IntegrityError eq_refl)).
    + rewrite (Hnf e eq_refl).
      destruct (get_factor_definition (working s) f) as [d|e'] eqn:Hd; simpl.
      * destruct (validate_mappings (working s) (get_mappings factor_config))
          as [[]|e0] eqn:Hv; simpl; [discriminate|].
        destruct e0 as [what key|why| |]; simpl; intros H; injection H as <- _ _;
          [now right | now left | |]; exfalso;
          [now apply (proj1 (Hva AttributeError eq_refl))
          |now apply (proj2 (Hva IntegrityError eq_refl))].
      * rewrite (Hnd e' eq_refl). simpl. intros H. injection H as <- _ _. now right.
Qed.

(** X15: the deprecated [DELETE /definitions/{factor_id}/config] for an admin
    answers 204 when the factor has a configuration row: the row is removed
    and the removal committed, the rows of the other factors, the definitions
    and the models staying as they were.  Without a row it answers 204 when
    the definition exists, with its write committed; with neither row nor
    definition it answers 404 and changes nothing; without admin rights it
    answers 403. *)
Theorem api_delete_factor_config_spec (f : Z) (s : Session) :
  (forall row,
      get_factor_config_by_factor_id (working s) f = Return row ->
      exists s',
        Api.delete_factor_config true f s = (Api.Ok 204, s')
        /\ stored s' = working s'
        /\ configs (working s') = rows_besides f (configs (working s))
        /\ get_factor_config_by_factor_id (working s') f
           = Raise (NotFoundError FactorConfigEntity f)
        /\ definitions (working s') = definitions (working s)
        /\ models (working s') = models (working s))
  /\ (forall e d,
        get_factor_config_by_factor_id (working s) f = Raise e ->
        get_factor_definition (working s) f = Return d ->
        exists s',
          Api.delete_factor_config true f s = (Api.Ok 204, s')
          /\ stored s' = working s')
  /\ (forall e e',
        get_factor_config_by_factor_id (working s) f = Raise e ->
        get_factor_definition (working s) f = Raise e' ->
        Api.delete_factor_config true f s = (Api.HTTPException 404 (Some e'), s))
  /\ Api.delete_factor_config false f s = (Api.HTTPException 403 None, s).
Proof.
  unfold Api.delete_factor_config. run_endpoint.
  assert (Hnf : forall e, get_factor_config_by_factor_id (working s) f = Raise e ->
                          e = NotFoundError FactorConfigEntity f).
  { unfold get_factor_config_by_factor_id.
    destruct (find _ (configs (working s))); intros e H; [discriminate|].
    now injection H as <-. }
  assert (Hnd : forall e, get_factor_definition (working s) f = Raise e ->
                          e = NotFoundError FactorDefinitionEntity f).
  { unfold get_factor_definition.
    destruct (find _ (definitions (working s))); intros e H; [discriminate|].
    now injection H as <-. }
  split; [|split; [|split]].
  - intros row Hrow. destruct (get_factor_config_found _ _ _ Hrow) as [Hfind Hf].
    rewrite Hrow. simpl. rewrite Hf.
    eexists. split; [reflexivity|]. simpl. repeat split.
    unfold get_factor_config_by_factor_id. simpl.
    now rewrite (find_filter_out (fun c => fc_factor_id c =? f)).
  - intros e d He Hd. destruct (get_factor_definition_found _ _ _ Hd) as [Hfind Hid].
    rewrite He, (Hnf e He). rewrite Hd. simpl.
    eexists. split; reflexivity.
  - intros e e' He He'. rewrite He, (Hnf e He). rewrite He', (Hnd e' He'). reflexivity.
  - reflexivity.
Qed.

(** X16: the deprecated [PUT /configs/by-factor/{factor_id}] replaces the
    parts of the configuration that the body gives and keeps the others: the
    answer carries the given mappings or else those of the configuration
    [get_factor_config] answered, the given [enabled] or else the current
    one; the merged mappings passed the validation and the write is
    committed; on an error nothing is committed; without admin rights the
    answer is 403. *)
Theorem api_update_factor_config_by_factor_merges (f : Z)
  (config_data : Api.FactorConfigUpdate) (s : Session) (old : Config) :
  get_factor_config (working s) f = Return old ->
  (forall g s',
      Api.update_factor_config_by_factor true f config_data s = (Api.Ok g, s') ->
      Api.grouped_factor_id g = f
      /\ Api.grouped_mappings g
         = match Api.update_mappings config_data with
           | Some ms => ms
           | None => get_mappings old
           end
      /\ Api.grouped_enabled g
         = match Api.update_enabled config_data with
           | Some b => b
           | None => get_enabled old
           end
      /\ validate_mappings (working s) (Api.grouped_mappings g) = Return tt
      /\ stored s' = working s')
  /\ (forall status detail s',
        Api.update_factor_config_by_factor true f config_data s
        = (Api.HTTPException status detail, s') ->
        stored s' = stored s
        /\ exists e,
             validate_mappings (working s)
               match Api.update_mappings config_data with
               | Some ms => ms
               | None => get_mappings old
               end = Raise e
             /\ status = Api.status_of e /\ detail = Some e)
  /\ Api.update_factor_config_by_factor false f config_data s
     = (Api.HTTPException 403 None, s).
Proof.
  intros Hold. unfold Api.update_factor_config_by_factor. run_endpoint.
  rewrite Hold. simpl.
  unfold get_factor_config in Hold.
  destruct (get_factor_definition (working s) f) as [d|e] eqn:Hd; [|discriminate].
  simpl in Hold. injection Hold as Hold.
  destruct (get_factor_definition_found _ _ _ Hd) as [Hfind Hid]. simpl.
  destruct config_data as [[ms|] [b|]]; simpl;
    match goal with
    | |- context [validate_mappings (working s) ?m] =>
        destruct (validate_mappings (working s) m) as [[]|e] eqn:Hv
    end; simpl; (split; [|split; [|reflexivity]]);
    try (intros g s' H; try discriminate; injection H as <- <-; simpl;
         rewrite ?Hold; repeat split; try assumption; now subst old);
    intros status detail s' H; try discriminate; injection H as <- <- <-;
    (split; [reflexivity|]); exists e; subst old; auto.
Qed.

(** ** Grouping the rows by factor *)

Lemma rows_of_snoc (f : Z) (l : list FactorConfig) (c : FactorConfig) :
  rows_of f (l ++ [c])
  = (rows_of f l ++ (if fc_factor_id c =? f then [c] else []))%list.
Proof. unfold rows_of. rewrite filter_app. reflexivity. Qed.

Lemma group_by_factor_snoc (l : list FactorConfig) (c : FactorConfig) :
  Api.group_by_factor (l ++ [c]) = Api.add_to_group c (Api.group_by_factor l).
Proof. unfold Api.group_by_factor. now rewrite fold_left_app. Qed.

Lemma add_to_group_keys (c : FactorConfig) (G : list (Z * list FactorConfig)) :
  (In (fc_factor_id c) (map fst G) -> map fst (Api.add_to_group c G) = map fst G)
  /\ (~ In (fc_factor_id c) (map fst G) ->
      map fst (Api.add_to_group c G) = (map fst G ++ [fc_factor_id c])%list).
Proof.
  induction G as [|[k cs] G [IH1 IH2]]; simpl.
  - split; [contradiction | reflexivity].
  - destruct (k =? fc_factor_id c) eqn:Hk; simpl.
    + split; [reflexivity|]. apply Z.eqb_eq in Hk. intros H. exfalso. apply H. now left.
    + apply Z.eqb_neq in Hk. split.
      * intros [H | H]; [contradiction|]. now rewrite IH1.
      * intros H. rewrite IH2; [reflexivity|]. intros Hin. apply H. now right.
Qed.

Lemma add_to_group_in (c : FactorConfig) (G : list (Z * list FactorConfig))
  (f : Z) (cs : list FactorConfig) :
  NoDup (map fst G) ->
  In (f, cs) (Api.add_to_group c G) ->
  (f <> fc_factor_id c /\ In (f, cs) G)
  \/ (f = fc_factor_id c /\ exists cs0, In (f, cs0) G /\ cs = (cs0 ++ [c])%list)
  \/ (f = fc_factor_id c /\ ~ In f (map fst G) /\ cs = [c]).
Proof.
  induction G as [|[k cs0] G IH]; simpl; intros Hnd Hin.
  - destruct Hin as [Heq | []]. injection Heq as <- <-. right. right. auto.
  - inversion Hnd as [|? ? Hnotin Hnd']; subst.
    destruct (k =? fc_factor_id c) eqn:Hk.
    + apply Z.eqb_eq in Hk. destruct Hin as [Heq | Hin].
      * injection Heq as <- <-. right. left. split; [exact Hk|].
        exists cs0. split; [now left | reflexivity].
      * left. split; [|now right]. intros Hf. apply Hnotin.
        rewrite Hk, <- Hf. apply (in_map fst _ _ Hin).
    + apply Z.eqb_neq in Hk. destruct Hin as [Heq | Hin].
      * injection Heq as <- <-. left. split; [exact Hk | now left].
      * destruct (IH Hnd' Hin) as [[H1 H2] | [[H1 [cs1 [H2 H3]]] | [H1 [H2 H3]]]].
        -- left. split; [assumption | now right].
        -- right. left. split; [assumption|]. exists cs1. split; [now right | assumption].
        -- right. right. repeat split; try assumption.
           intros [Hkf | Hin']; [|contradiction]. simpl in Hkf. congruence.
Qed.

Lemma group_by_factor_groups (l : list FactorConfig) :
  groups_of l (Api.group_by_factor l).
Proof.
  induction l as [|c l IH] using rev_ind.
  - repeat split; simpl; try contradiction. constructor.
  - destruct IH as [Hnd [Hkeys Hrows]]. rewrite group_by_factor_snoc.
    destruct (in_dec Z.eq_dec (fc_factor_id c) (map fst (Api.group_by_factor l)))
      as [Hin | Hout].
    + repeat split.
      * now rewrite (proj1 (add_to_group_keys c _) Hin).
      * rewrite (proj1 (add_to_group_keys c _) Hin), map_app, in_app_iff.
        intros H. left. now apply Hkeys.
      * rewrite (proj1 (add_to_group_keys c _) Hin), map_app, in_app_iff.
        intros [H | [<- | []]]; [now apply Hkeys | assumption].
      * destruct (add_to_group_in c _ f cs Hnd H)
          as [[H1 H2] | [[H1 [cs1 [H2 H3]]] | [H1 [H2 H3]]]].
        -- rewrite rows_of_snoc. assert (Hb : (fc_factor_id c =? f) = false)
             by (apply Z.eqb_neq; congruence).
           rewrite Hb, app_nil_r. now apply Hrows.
        -- rewrite rows_of_snoc, H1, Z.eqb_refl, H3. f_equal.
           rewrite <- H1. now apply Hrows.
        -- exfalso. apply H2. now rewrite H1.
      * destruct (add_to_group_in c _ f cs Hnd H)
          as [[H1 H2] | [[H1 [cs1 [H2 H3]]] | [H1 [H2 H3]]]].
        -- now apply (Hrows f cs).
        -- rewrite H3. now destruct cs1.
        -- rewrite H3. discriminate.
    + repeat split.
      * rewrite (proj2 (add_to_group_keys c _) Hout).
        apply NoDup_app; [assumption | repeat constructor; intros [] |].
        intros x Hx [<- | []]. contradiction.
      * rewrite (proj2 (add_to_group_keys c _) Hout), map_app, !in_app_iff.
        intros [H | H]; [left; now apply Hkeys | now right].
      * rewrite (proj2 (add_to_group_keys c _) Hout), map_app, !in_app_iff.
        intros [H | H]; [left; now apply Hkeys | now right].
      * destruct (add_to_group_in c _ f cs Hnd H)
          as [[H1 H2] | [[H1 [cs1 [H2 H3]]] | [H1 [H2 H3]]]].
        -- rewrite rows_of_snoc. assert (Hb : (fc_factor_id c =? f) = false)
             by (apply Z.eqb_neq; congruence).
           rewrite Hb, app_nil_r. now apply Hrows.
        -- exfalso. apply Hout. rewrite <- H1. apply (in_map fst _ _ H2).
        -- rewrite rows_of_snoc, H1, Z.eqb_refl, H3.
           assert (Hnil : rows_of (fc_factor_id c) l = []).
           { unfold rows_of. destruct (filter _ l) as [|x r] eqn:Hx; [reflexivity|].
             exfalso. apply Hout. apply Hkeys.
             assert (Hxin : In x (filter (fun c0 => fc_factor_id c0 =? fc_factor_id c) l))
               by (rewrite Hx; now left).
             apply filter_In in Hxin. destruct Hxin as [Hxl Hxf].
             apply Z.eqb_eq in Hxf. rewrite <- Hxf. now apply in_map. }
           now rewrite Hnil.
      * destruct (add_to_group_in c _ f cs Hnd H)
          as [[H1 H2] | [[H1 [cs1 [H2 H3]]] | [H1 [H2 H3]]]].
        -- now apply (Hrows f cs).
        -- rewrite H3. now destruct cs1.
        -- rewrite H3. discriminate.
Qed.

Lemma filter_head_find {A : Type} (p : A -> bool) (l : list A) (x : A) (r : list A) :
  filter p l = x :: r -> find p l = Some x.
Proof.
  induction l as [|y l IH]; simpl; [discriminate|].
  destruct (p y); [intros H; now injection H as -> | exact IH].
Qed.

(** X17: the grouping of [GET /configs/grouped]: no factor has two groups,
    the factors of the groups are those of the rows, the group of a factor
    holds all its rows in their order and is never empty, so that there is
    one item per group, whose [enabled] is that of the first row of the
    factor. *)
Theorem group_by_factor_spec (all_configs : list FactorConfig) :
  NoDup (map fst (Api.group_by_factor all_configs))
  /\ (forall f, In f (map fst (Api.group_by_factor all_configs))
                <-> exists c, In c all_configs /\ fc_factor_id c = f)
  /\ (forall f cs, In (f, cs) (Api.group_by_factor all_configs) ->
                   cs = rows_of f all_configs /\ cs <> [])
  /\ List.length (Api.grouped_items all_configs)
     = List.length (Api.group_by_factor all_configs)
  /\ (forall f e cs,
        In (f, e, cs) (Api.grouped_items all_configs) ->
        cs = rows_of f all_configs
        /\ exists first,
             find (fun c => fc_factor_id c =? f) all_configs = Some first
             /\ e = fc_enabled first).
Proof.
  destruct (group_by_factor_groups all_configs) as [Hnd [Hkeys Hrows]].
  split; [exact Hnd|]. split; [|split; [exact Hrows|]].
  - intros f. rewrite Hkeys, in_map_iff. split; intros [c [H1 H2]]; exists c; auto.
  - unfold Api.grouped_items.
    assert (Hne : forall g, In g (Api.group_by_factor all_configs) -> snd g <> []).
    { intros [f cs] Hin. now apply (Hrows f cs). }
    clear Hnd Hkeys. split.
    + clear Hrows. induction (Api.group_by_factor all_configs) as [|[f cs] G IH];
        simpl; [reflexivity|].
      destruct cs as [|first rest].
      * exfalso. apply (Hne (f, [])); [now left | reflexivity].
      * simpl. f_equal. apply IH. intros g Hg. apply Hne. now right.
    + intros f e cs Hin. apply in_flat_map in Hin. destruct Hin as [[k ks] [Hg Hitem]].
      simpl in Hitem. destruct ks as [|first rest]; [contradiction|].
      destruct Hitem as [Heq | []]. injection Heq as <- <- <-.
      destruct (Hrows k (first :: rest) Hg) as [Hcs _]. split; [exact Hcs|].
      exists first. split; [|reflexivity].
      unfold rows_of in Hcs. symmetry in Hcs. exact (filter_head_find _ _ _ _ Hcs).
Qed.

(** ** The table of the factor results *)

Lemma before_dot_no_dot (code : string) :
  FactorRepository.has_dot (FactorRepository.before_dot code) = false.
Proof.
  induction code as [|c rest IH]; simpl; [reflexivity|].
  destruct (Ascii.eqb c ".") eqn:Hc; simpl; [reflexivity|]. now rewrite Hc.
Qed.

Lemma before_dot_prefix (n suffix : string) :
  FactorRepository.has_dot n = false ->
  FactorRepository.before_dot (n ++ "." ++ suffix) = n
  /\ FactorRepository.has_dot (n ++ "." ++ suffix) = true.
Proof.
  induction n as [|c rest IH]; simpl; [auto|].
  destruct (Ascii.eqb c "."); simpl; [discriminate|].
  intros H. destruct (IH H) as [H1 H2]. simpl in H1, H2. rewrite H1, H2. auto.
Qed.

(** X18: the table [get_factor_results] reads: its name ends in the code up
    to its first dot, which has no dot; a code without dot is taken whole;
    codes that differ after the first dot share a table. *)
Theorem table_name_spec (code : string) :
  FactorRepository.has_dot (FactorRepository.code_num code) = false
  /\ FactorRepository.code_num (FactorRepository.code_num code)
     = FactorRepository.code_num code
  /\ (FactorRepository.has_dot code = false ->
      FactorRepository.table_name code = "zq_quant_factor_spacex_" ++ code)
  /\ (forall n suffix,
        FactorRepository.has_dot n = false ->
        code = n ++ "." ++ suffix ->
        FactorRepository.table_name code = "zq_quant_factor_spacex_" ++ n).
Proof.
  assert (H1 : FactorRepository.has_dot (FactorRepository.code_num code) = false).
  { unfold FactorRepository.code_num.
    destruct (FactorRepository.has_dot code) eqn:Hd;
      [apply before_dot_no_dot | exact Hd]. }
  split; [exact H1|]. split; [|split].
  - unfold FactorRepository.code_num at 1. now rewrite H1.
  - intros Hd. unfold FactorRepository.table_name, FactorRepository.code_num.
    now rewrite Hd.
  - intros n suffix Hn ->. unfold FactorRepository.table_name, FactorRepository.code_num.
    destruct (before_dot_prefix n suffix Hn) as [Hb Hd]. now rewrite Hd, Hb.
Qed.

(** ** The deprecated batch update, when it goes through *)







Lemma enabled_set_rows (f : Z) (b : bool) (l : list FactorConfig) :
  Forall2 (fun old new =>
             same_but_enabled old new
             /\ fc_enabled new = if fc_factor_id old =? f then b else fc_enabled old)
    l (map (fun c => if fc_factor_id c =? f then with_config_enabled b c else c) l).
Proof.
  induction l as [|c l IH]; simpl; constructor; [|exact IH].
  unfold same_but_enabled. destruct (fc_factor_id c =? f); simpl; repeat split.
Qed.

Lemma same_rows (l : list FactorConfig) :
  Forall2 (fun old new => same_but_enabled old new /\ fc_enabled new = fc_enabled old) l l.
Proof.
  induction l as [|c l IH]; constructor; [|exact IH].
  unfold same_but_enabled. repeat split.
Qed.

(** X20: the deprecated batch update without mappings, on an existing factor,
    commits and returns the rows of the factor.  Row by row, the table it
    leaves is the table it found, but for [enabled], which carries the value
    given on the rows of the factor and is as it was on the others (and on
    all of them when no value is given); models and definitions are
    untouched. *)
Theorem update_factor_config_with_mappings_flag (s : Session) (f : Z)
  (flag : option bool) (d : FactorDefinition) :
  get_factor_definition (working s) f = Return d ->
  exists s',
    update_factor_config_with_mappings f None flag s
    = (Return (rows_of f (configs (working s'))), s')
    /\ stored s' = working s'
    /\ Forall2 (fun old new =>
                  same_but_enabled old new
                  /\ fc_enabled new
                     = match flag with
                       | Some b => if fc_factor_id old =? f then b else fc_enabled old
                       | None => fc_enabled old
                       end)
         (configs (working s)) (configs (working s'))
    /\ (flag = None -> working s' = working s)
    /\ models (working s') = models (working s)
    /\ definitions (working s') = definitions (working s).
Proof.
  intros Hd. unfold update_factor_config_with_mappings. run_session.
  rewrite Hd. simpl. destruct flag as [b|]; simpl;
    match goal with
    | |- exists s', (_, ?t) = _ /\ _ => exists t
    end; (split; [reflexivity|]); simpl; repeat split; try discriminate.
  - apply enabled_set_rows.
  - apply same_rows.
Qed.

(** * Properties of the query builder *)

Section QueryBuilderFacts.

Import QueryBuilder.

Variables T F : Type.

Lemma limit_positive (n : Z) (b : Builder T F) :
  1 <= n ->
  limit n b = {| answer := answer b; ordering := ordering b;
                 limit_of := Some n; offset_of := offset_of b |}.
Proof.
  intros H. unfold limit.
  assert (H0 : (n =? 0) = false) by (apply Z.eqb_neq; lia).
  assert (H1 : (n >? 0) = true) by (apply Z.gtb_lt; lia).
  now rewrite H0, H1.
Qed.

Lemma offset_positive (n : Z) (b : Builder T F) :
  1 <= n ->
  offset n b = {| answer := answer b; ordering := ordering b;
                  limit_of := limit_of b; offset_of := Some n |}.
Proof.
  intros H. unfold offset.
  assert (H0 : (n =? 0) = false) by (apply Z.eqb_neq; lia).
  assert (H1 : (n >=? 0) = true) by (apply Z.geb_le; lia).
  now rewrite H0, H1.
Qed.

Lemma limit_ignored (n : Z) (b : Builder T F) : n <= 0 -> limit n b = b.
Proof.
  intros H. unfold limit. destruct (Z.eq_dec n 0) as [->|Hn]; [reflexivity|].
  assert (H1 : (n >? 0) = false) by (rewrite Z.gtb_ltb; apply Z.ltb_ge; lia).
  now rewrite H1, andb_false_r.
Qed.

Lemma offset_ignored (n : Z) (b : Builder T F) : n <= 0 -> offset n b = b.
Proof.
  intros H. unfold offset. destruct (Z.eq_dec n 0) as [->|Hn]; [reflexivity|].
  assert (H1 : (n >=? 0) = false) by (rewrite Z.geb_leb; apply Z.leb_gt; lia).
  now rewrite H1, andb_false_r.
Qed.

Lemma all_paginate_fresh (rows : list F -> list T) (page page_size : Z) :
  1 <= page -> 1 <= page_size ->
  all (paginate page page_size (fresh rows))
  = firstn (Z.to_nat page_size) (skipn (Z.to_nat ((page - 1) * page_size)) (rows [])).
Proof.
  intros Hp Hs. unfold paginate.
  assert (H1 : (page <? 1) = false) by (apply Z.ltb_ge; lia).
  assert (H2 : (page_size <? 1) = false) by (apply Z.ltb_ge; lia).
  rewrite H1, H2. rewrite limit_positive by assumption.
  destruct (Z.eq_dec page 1) as [->|Hne].
  - rewrite offset_ignored by lia. reflexivity.
  - rewrite offset_positive by nia. reflexivity.
Qed.

(** X21: on a fresh builder, [paginate(page, page_size)] with positive
    arguments selects the rows of that page: at most [page_size] of them,
    followed in the full answer by the rows of the later pages, and none when
    the page starts beyond the last row. *)
Theorem paginate_pages (rows : list F -> list T) (page page_size : Z) :
  1 <= page -> 1 <= page_size ->
  all (paginate page page_size (fresh rows))
  = firstn (Z.to_nat page_size) (skipn (Z.to_nat ((page - 1) * page_size)) (rows []))
  /\ count (paginate page page_size (fresh rows)) <= page_size
  /\ (all (paginate page page_size (fresh rows))
      ++ skipn (Z.to_nat (page * page_size)) (rows []))%list
     = skipn (Z.to_nat ((page - 1) * page_size)) (rows [])
  /\ (Z.of_nat (List.length (rows [])) <= (page - 1) * page_size ->
      all (paginate page page_size (fresh rows)) = []).
Proof.
  intros Hp Hs. unfold count. rewrite (all_paginate_fresh rows page page_size Hp Hs).
  repeat split.
  - rewrite length_firstn. lia.
  - replace (Z.to_nat (page * page_size))
      with (Z.to_nat page_size + Z.to_nat ((page - 1) * page_size))%nat by nia.
    rewrite <- skipn_skipn. apply firstn_skipn.
  - intros Hend. rewrite skipn_all2 by lia. apply firstn_nil.
Qed.

(** X22: the edges of the pagination: a page below 1 is page 1, a page size
    below 1 is 20; [limit] and [offset] ignore an argument that is zero or
    negative, so [limit(0)] returns every row; and paginating to page 1 after
    page [p] keeps the offset of page [p]. *)
Theorem paginate_edges (b : Builder T F) (page page_size : Z) :
  (page < 1 -> paginate page page_size b = paginate 1 page_size b)
  /\ (page_size < 1 -> paginate page page_size b = paginate page 20 b)
  /\ (forall n, n <= 0 -> limit n b = b /\ offset n b = b)
  /\ (forall (rows : list F -> list T) n, n <= 0 -> all (limit n (fresh rows)) = rows [])
  /\ (forall (rows : list F -> list T), 2 <= page -> 1 <= page_size ->
        all (paginate 1 page_size (paginate page page_size (fresh rows)))
        = all (paginate page page_size (fresh rows))).
Proof.
  repeat split.
  - intros H. unfold paginate.
    assert (H1 : (page <? 1) = true) by (apply Z.ltb_lt; lia). now rewrite H1.
  - intros H. unfold paginate.
    assert (H1 : (page_size <? 1) = true) by (apply Z.ltb_lt; lia). now rewrite H1.
  - now apply limit_ignored.
  - now apply offset_ignored.
  - intros rows n Hn. now rewrite limit_ignored.
  - intros rows Hp Hs. unfold paginate at 1.
    assert (H2 : (page_size <? 1) = false) by (apply Z.ltb_ge; lia).
    rewrite H2. simpl. rewrite offset_ignored by lia.
    unfold paginate. rewrite H2.
    assert (H1 : (page <? 1) = false) by (apply Z.ltb_ge; lia).
    rewrite H1. rewrite !limit_positive by assumption. reflexivity.
Qed.

(** [order_by] with [desc=True] and a field raises: descending order cannot
    be asked through the builder. *)
Lemma order_by_descending_raises (b : Builder T F) (field : F) (fields : list F) :
  order_by (field :: fields) true b = inr TypeError
  /\ (exists b',
        order_by (field :: fields) false b = inl b'
        /\ ordering b' = (ordering b ++ field :: fields)%list
        /\ limit_of b' = limit_of b /\ offset_of b' = offset_of b)
  /\ (forall desc, order_by [] desc b = inl b).
Proof.
  repeat split. eexists. repeat split.
Qed.

End QueryBuilderFacts.

(** * Properties of the strategy factory *)

Section FactoryFacts.

Import SyncStrategyFactory.

Variable Strategy : Type.

Lemma get_in_keys (registry : Registry Strategy) (a : string) :
  (exists c, get registry a = Some c) <-> In a (get_supported_actions registry).
Proof.
  unfold get_supported_actions.
  induction registry as [|[k v] rest IH]; simpl.
  - split; [intros [c H]; discriminate | contradiction].
  - destruct (String.eqb k a) eqn:Hk.
    + apply String.eqb_eq in Hk. split; [now left | eauto].
    + apply String.eqb_neq in Hk. rewrite IH. split; [now right|].
      intros [H | H]; [contradiction | assumption].
Qed.

(** X23: [create_strategy] succeeds exactly for the actions that
    [get_supported_actions] lists, and raises [ValueError] for the others. *)
Theorem create_strategy_supported (registry : Registry Strategy) (task_action : string) :
  ((exists c, create_strategy registry task_action = inl c)
   <-> In task_action (get_supported_actions registry))
  /\ (~ In task_action (get_supported_actions registry) ->
      exists message, create_strategy registry task_action = inr message).
Proof.
  unfold create_strategy. split.
  - rewrite <- get_in_keys.
    destruct (get registry task_action) as [c|]; split; intros [c' H];
      solve [eauto | discriminate].
  - intros Hout. destruct (get registry task_action) as [c|] eqn:Hg; [|eauto].
    exfalso. apply Hout. apply get_in_keys. eauto.
Qed.

(** X24: after [register_strategy], [create_strategy] gives the registered
    class for that action and the lookup of every other action is unchanged;
    an action already supported keeps its place in the list of supported
    actions, a new one goes last, and the list stays free of duplicates. *)
Theorem register_strategy_spec (registry : Registry Strategy) (task_action : string)
  (strategy_class : Strategy) :
  create_strategy (register_strategy registry task_action strategy_class) task_action
  = inl strategy_class
  /\ (forall other, other <> task_action ->
        get (register_strategy registry task_action strategy_class) other
        = get registry other)
  /\ (In task_action (get_supported_actions registry) ->
      get_supported_actions (register_strategy registry task_action strategy_class)
      = get_supported_actions registry)
  /\ (~ In task_action (get_supported_actions registry) ->
      get_supported_actions (register_strategy registry task_action strategy_class)
      = (get_supported_actions registry ++ [task_action])%list)
  /\ (NoDup (get_supported_actions registry) ->
      NoDup (get_supported_actions
               (register_strategy registry task_action strategy_class))).
Proof.
  assert (Hkeys :
    (In task_action (get_supported_actions registry) ->
     get_supported_actions (register_strategy registry task_action strategy_class)
     = get_supported_actions registry)
    /\ (~ In task_action (get_supported_actions registry) ->
        get_supported_actions (register_strategy registry task_action strategy_class)
        = (get_supported_actions registry ++ [task_action])%list)).
  { unfold get_supported_actions.
    induction registry as [|[k v] rest [IH1 IH2]]; simpl.
    - split; [contradiction | reflexivity].
    - destruct (String.eqb k task_action) eqn:Hk; simpl.
      + apply String.eqb_eq in Hk. split; [reflexivity|].
        intros H. exfalso. apply H. now left.
      + apply String.eqb_neq in Hk. split.
        * intros [H | H]; [contradiction | now rewrite IH1].
        * intros H. rewrite IH2; [reflexivity|]. intros Hin. apply H. now right. }
  split; [|split; [|split; [exact (proj1 Hkeys) | split; [exact (proj2 Hkeys)|]]]].
  - unfold create_strategy.
    assert (Hg : get (register_strategy registry task_action strategy_class) task_action
                 = Some strategy_class).
    { clear Hkeys. induction registry as [|[k v] rest IH]; simpl.
      - now rewrite String.eqb_refl.
      - destruct (String.eqb k task_action) eqn:Hk; simpl; rewrite Hk;
          [reflexivity | exact IH]. }
    now rewrite Hg.
  - intros other Hne. clear Hkeys. induction registry as [|[k v] rest IH]; simpl.
    + assert (Hb : String.eqb task_action other = false)
        by (apply String.eqb_neq; congruence).
      now rewrite Hb.
    + destruct (String.eqb k task_action) eqn:Hk; simpl.
      * apply String.eqb_eq in Hk. subst k.
        assert (Hb : String.eqb task_action other = false)
          by (apply String.eqb_neq; congruence).
        now rewrite Hb.
      * destruct (String.eqb k other); [reflexivity | exact IH].
  - intros Hnd.
    destruct (in_dec string_dec task_action (get_supported_actions registry))
      as [Hin | Hout].
    + now rewrite (proj1 Hkeys Hin).
    + rewrite (proj2 Hkeys Hout).
      apply NoDup_app; [assumption | repeat constructor; intros [] |].
      intros x Hx [<- | []]. contradiction.
Qed.

End FactoryFacts.

(** * The further properties at work on the example data *)

Lemma create_factor_config_roundtrip_witness :
  exists row s',
    create_factor_config 1 Demo.layered None ExtraDemo.bare = (Return row, s')
    /\ fc_config row = Demo.layered
    /\ get_factor_config_by_factor_id (working s') 1 = Return row.
Proof.
  destruct (create_factor_config_roundtrip ExtraDemo.bare 1 Demo.layered None
              Demo.turnover eq_refl (fun c (H : In c []) => match H with end) eq_refl)
    as [row [s' [H1 [_ [H2 [_ [H3 _]]]]]]].
  exists row, s'. auto.
Defined.


Lemma delete_factor_config_by_factor_id_spec_witness :
  (exists s',
     delete_factor_config_by_factor_id 1 ExtraDemo.configured = (Return true, s')
     /\ get_factor_config_by_factor_id (working s') 1
        = Raise (NotFoundError FactorConfigEntity 1))
  /\ delete_factor_config_by_factor_id 1 ExtraDemo.bare
     = (Raise (NotFoundError FactorConfigEntity 1), ExtraDemo.bare).
Proof.
  split.
  - destruct (proj1 (delete_factor_config_by_factor_id_spec ExtraDemo.configured 1)
                (Demo.row_of Demo.layered) eq_refl)
      as [s' [H1 [_ [H2 _]]]].
    exists s'. auto.
  - exact (proj2 (delete_factor_config_by_factor_id_spec ExtraDemo.bare 1)
             (NotFoundError FactorConfigEntity 1) eq_refl).
Defined.

Lemma create_then_delete_factor_config_witness :
  exists s2,
    delete_factor_config_by_factor_id 1
      (snd (create_factor_config 1 Demo.layered None ExtraDemo.bare))
    = (Return true, s2)
    /\ working s2 = working ExtraDemo.bare.
Proof.
  destruct (create_then_delete_factor_config ExtraDemo.bare 1 Demo.layered None
              (Demo.row_of Demo.layered)
              (snd (create_factor_config 1 Demo.layered None ExtraDemo.bare))
              (fun c (H : In c []) => match H with end) eq_refl)
    as [s2 [H1 [H2 _]]].
  exists s2. auto.
Defined.

Lemma validated_config_resolves_witness :
  exists r, get_model_for_code (Demo.db_of Demo.layered) 1 "Q" = Return r.
Proof.
  destruct (validated_config_resolves (Demo.db_of Demo.layered) 1 Demo.turnover
              (Demo.row_of Demo.layered) "Q" eq_refl eq_refl eq_refl)
    as [r [H _]].
  exists r. exact H.
Defined.

Lemma delete_factor_model_leaves_stale_mapping_witness :
  get_model_for_code (working ExtraDemo.configured) 1 "X" = Return (Some Demo.ma_model)
  /\ exists s',
       delete_factor_model 2 ExtraDemo.configured = (Return true, s')
       /\ get_model_for_code (working s') 1 "X"
          = Raise (NotFoundError FactorModelEntity 2).
Proof.
  destruct (delete_factor_model_leaves_stale_mapping ExtraDemo.configured 2 1
              Demo.ma_model Demo.turnover (Demo.row_of Demo.layered) "X"
              [] Demo.mapping_x [Demo.mapping_xz; Demo.mapping_rest]
              eq_refl eq_refl eq_refl eq_refl eq_refl
              (fun m (H : In m []) => match H with end)
              (ex_intro _ ["X"] (conj eq_refl (or_introl eq_refl)))
              eq_refl ltac:(discriminate))
    as [H1 [s' [H2 [_ H3]]]].
  split; [exact H1|]. exists s'. auto.
Defined.

Lemma create_factor_model_roundtrip_witness :
  (exists model s',
     create_factor_model 1 "weekly" "turnover_rate_w" None true true ExtraDemo.configured
     = (Return model, s')
     /\ get_factor_model (working s') (fm_id model) = Return model)
  /\ create_factor_model 7 "weekly" "turnover_rate_w" None true true ExtraDemo.configured
     = (Raise (NotFoundError FactorDefinitionEntity 7), ExtraDemo.configured).
Proof.
  split.
  - destruct (proj1 (create_factor_model_roundtrip ExtraDemo.configured 1 "weekly"
                       "turnover_rate_w" None true true) Demo.turnover eq_refl)
      as [model [s' [H1 [_ [_ [_ [H2 _]]]]]]].
    exists model, s'. auto.
  - exact (proj2 (create_factor_model_roundtrip ExtraDemo.configured 7 "weekly"
                    "turnover_rate_w" None true true)
             (NotFoundError FactorDefinitionEntity 7) eq_refl).
Defined.

Lemma delete_factor_model_spec_witness :
  (exists s',
     delete_factor_model 2 ExtraDemo.configured = (Return true, s')
     /\ get_factor_model (working s') 2 = Raise (NotFoundError FactorModelEntity 2))
  /\ delete_factor_model 9 ExtraDemo.configured
     = (Raise (NotFoundError FactorModelEntity 9), ExtraDemo.configured).
Proof.
  split.
  - destruct (proj1 (delete_factor_model_spec ExtraDemo.configured 2)
                Demo.ma_model eq_refl) as [s' [H1 [_ [H2 _]]]].
    exists s'. auto.
  - exact (proj2 (delete_factor_model_spec ExtraDemo.configured 9)
             (NotFoundError FactorModelEntity 9) eq_refl).
Defined.

Lemma update_factor_model_keeps_rows_witness :
  map fm_id (models (working (snd (update_factor_model 2 (Some "ma") None None
                                     (Some true) (Some false) ExtraDemo.configured))))
  = map fm_id (models (working ExtraDemo.configured))
  /\ update_factor_model 9 (Some "ma") None None (Some true) (Some false)
       ExtraDemo.configured
     = (Raise (NotFoundError FactorModelEntity 9), ExtraDemo.configured).
Proof.
  destruct (update_factor_model_keeps_rows ExtraDemo.configured 2 (Some "ma") None None
              (Some true) (Some false)) as [H1 _].
  split; [exact H1|].
  exact (proj2 (proj2 (proj2 (proj2
           (update_factor_model_keeps_rows ExtraDemo.configured 9 (Some "ma") None None
              (Some true) (Some false)))))
           (NotFoundError FactorModelEntity 9) eq_refl).
Defined.

Lemma create_factor_definition_spec_witness :
  create_factor_definition "turnover_rate" "again" None None None true None
    ExtraDemo.configured
  = (Raise (ValueError NameExists), ExtraDemo.configured)
  /\ exists def s',
       create_factor_definition "momentum" "momentum" None (Some "") None true None
         ExtraDemo.configured
       = (Return def, s')
       /\ fd_column_name def = "momentum"
       /\ get_factor_definition_by_name (working s') "momentum" = Some def.
Proof.
  split.
  - exact (proj1 (create_factor_definition_spec ExtraDemo.configured "turnover_rate"
                    "again" None None None true None) Demo.turnover eq_refl).
  - destruct (proj2 (create_factor_definition_spec ExtraDemo.configured "momentum"
                       "momentum" None (Some "") None true None) eq_refl)
      as [def [s' [H1 [_ [H2 [_ [H3 _]]]]]]].
    exists def, s'. auto.
Defined.

Lemma update_factor_definition_keeps_identity_witness :
  map fd_factor_name
    (definitions (working (snd (update_factor_definition 1 (Some "renamed") None None
                                  None (Some false) None ExtraDemo.configured))))
  = map fd_factor_name (definitions (working ExtraDemo.configured))
  /\ update_factor_definition 7 (Some "renamed") None None None (Some false) None
       ExtraDemo.configured
     = (Raise (NotFoundError FactorDefinitionEntity 7), ExtraDemo.configured).
Proof.
  destruct (update_factor_definition_keeps_identity ExtraDemo.configured 1
              (Some "renamed") None None None (Some false) None) as [_ [H1 _]].
  split; [exact H1|].
  exact (proj2 (proj2 (proj2
           (proj2 (update_factor_definition_keeps_identity ExtraDemo.configured 7
              (Some "renamed") None None None (Some false) None))))
           (NotFoundError FactorDefinitionEntity 7) eq_refl).
Defined.

Lemma api_update_factor_config_effects_witness :
  Api.update_factor_config false "guest" 1 Demo.specific_only ExtraDemo.configured
  = (Api.HTTPException 403 None, ExtraDemo.configured)
  /\ snd (Api.update_factor_config true "admin" 1 ExtraDemo.stale_config ExtraDemo.configured)
     = ExtraDemo.configured
  /\ Api.get_factor_config 1
       (snd (Api.update_factor_config true "admin" 1 Demo.specific_only
               ExtraDemo.configured))
     = (Api.Ok Demo.specific_only,
        snd (Api.update_factor_config true "admin" 1 Demo.specific_only
               ExtraDemo.configured)).
Proof.
  split; [|split].
  - exact (proj1 (api_update_factor_config_effects false "guest" 1 Demo.specific_only
                    ExtraDemo.configured) eq_refl).
  - exact (proj1 (proj2 (api_update_factor_config_effects true "admin" 1 ExtraDemo.stale_config
                           ExtraDemo.configured))
             404 (Some (NotFoundError FactorModelEntity 999))
             (snd (Api.update_factor_config true "admin" 1 ExtraDemo.stale_config
                     ExtraDemo.configured)) eq_refl).
  - exact (proj2 (proj2 (proj2 (proj2
             (proj2 (proj2 (api_update_factor_config_effects true "admin" 1
                              Demo.specific_only ExtraDemo.configured))
                Demo.specific_only
                (snd (Api.update_factor_config true "admin" 1 Demo.specific_only
                        ExtraDemo.configured)) eq_refl))))).
Defined.

Lemma api_update_factor_config_status_witness :
  (exists s', Api.update_factor_config true "admin" 1 Demo.specific_only ExtraDemo.bare
              = (Api.Ok Demo.specific_only, s'))
  /\ Api.update_factor_config true "admin" 1 ExtraDemo.anonymous_config ExtraDemo.configured
     = (Api.HTTPException 400 (Some (ValueError MissingModelId)), ExtraDemo.configured)
  /\ (exists detail,
        Api.update_factor_config true "admin" 1 ExtraDemo.stale_config ExtraDemo.configured
        = (Api.HTTPException 404 detail, ExtraDemo.configured))
  /\ Api.update_factor_config true "admin" 7 Demo.specific_only ExtraDemo.configured
     = (Api.HTTPException 404 (Some (NotFoundError FactorDefinitionEntity 7)),
        ExtraDemo.configured).
Proof.
  split; [|split; [|split]].
  - apply (proj1 (api_update_factor_config_status "admin" 1 Demo.specific_only
                    ExtraDemo.bare)); [|reflexivity].
    right. exists Demo.turnover. reflexivity.
  - apply (proj1 (proj2 (api_update_factor_config_status "admin" 1 ExtraDemo.anonymous_config
                           ExtraDemo.configured))); [|reflexivity].
    left. exists (Demo.row_of Demo.layered). reflexivity.
  - exact (proj1 (proj2 (proj2 (api_update_factor_config_status "admin" 1 ExtraDemo.stale_config
                                  ExtraDemo.configured)))
             FactorModelEntity 999 eq_refl).
  - exact (proj1 (proj2 (proj2 (proj2
             (api_update_factor_config_status "admin" 7 Demo.specific_only
                ExtraDemo.configured))))
             (NotFoundError FactorConfigEntity 7)
             (NotFoundError FactorDefinitionEntity 7) eq_refl eq_refl).
Defined.

Lemma api_delete_factor_config_spec_witness :
  (exists s',
     Api.delete_factor_config true 1 ExtraDemo.configured = (Api.Ok 204, s')
     /\ get_factor_config_by_factor_id (working s') 1
        = Raise (NotFoundError FactorConfigEntity 1))
  /\ (exists s', Api.delete_factor_config true 1 ExtraDemo.bare = (Api.Ok 204, s'))
  /\ Api.delete_factor_config true 7 ExtraDemo.bare
     = (Api.HTTPException 404 (Some (NotFoundError FactorDefinitionEntity 7)),
        ExtraDemo.bare).
Proof.
  split; [|split].
  - destruct (proj1 (api_delete_factor_config_spec 1 ExtraDemo.configured)
                (Demo.row_of Demo.layered) eq_refl)
      as [s' [H1 [_ [_ [H2 _]]]]].
    exists s'. split; [exact H1 | exact H2].
  - destruct (proj1 (proj2 (api_delete_factor_config_spec 1 ExtraDemo.bare))
                (NotFoundError FactorConfigEntity 1) Demo.turnover eq_refl eq_refl)
      as [s' [H1 _]].
    exists s'. exact H1.
  - exact (proj1 (proj2 (proj2 (api_delete_factor_config_spec 7 ExtraDemo.bare)))
             (NotFoundError FactorConfigEntity 7)
             (NotFoundError FactorDefinitionEntity 7) eq_refl eq_refl).
Defined.

Lemma api_update_factor_config_by_factor_merges_witness :
  Api.grouped_mappings
    match fst (Api.update_factor_config_by_factor true 1 ExtraDemo.only_mappings
                 ExtraDemo.configured) with
    | Api.Ok g => g
    | Api.HTTPException _ _ =>
        {| Api.grouped_factor_id := 0; Api.grouped_enabled := false;
           Api.grouped_mappings := [] |}
    end
  = [Demo.mapping_rest].
Proof.
  exact (proj1 (proj2
           (proj1 (api_update_factor_config_by_factor_merges 1 ExtraDemo.only_mappings
                     ExtraDemo.configured empty_config eq_refl)
              {| Api.grouped_factor_id := 1; Api.grouped_enabled := true;
                 Api.grouped_mappings := [Demo.mapping_rest] |}
              (snd (Api.update_factor_config_by_factor true 1 ExtraDemo.only_mappings
                      ExtraDemo.configured)) eq_refl))).
Defined.

Lemma group_by_factor_spec_witness :
  List.length (Api.grouped_items ExtraDemo.three_rows)
  = List.length (Api.group_by_factor ExtraDemo.three_rows)
  /\ [ExtraDemo.row_for 1 true; ExtraDemo.row_for 1 false]
     = rows_of 1 ExtraDemo.three_rows.
Proof.
  destruct (group_by_factor_spec ExtraDemo.three_rows) as [_ [_ [H1 [H2 _]]]].
  split; [exact H2|].
  apply (H1 1 [ExtraDemo.row_for 1 true; ExtraDemo.row_for 1 false]).
  now left.
Defined.

Lemma table_name_spec_witness :
  FactorRepository.table_name "000001.SZ" = "zq_quant_factor_spacex_000001"
  /\ FactorRepository.table_name "000001" = "zq_quant_factor_spacex_000001".
Proof.
  split.
  - exact (proj2 (proj2 (proj2 (table_name_spec "000001.SZ")))
             "000001" "SZ" eq_refl eq_refl).
  - exact (proj1 (proj2 (proj2 (table_name_spec "000001"))) eq_refl).
Defined.


Lemma update_factor_config_with_mappings_flag_witness :
  exists s',
    update_factor_config_with_mappings 1 None (Some false) ExtraDemo.configured
    = (Return (rows_of 1 (configs (working s'))), s')
    /\ definitions (working s') = definitions (working ExtraDemo.configured).
Proof.
  destruct (update_factor_config_with_mappings_flag ExtraDemo.configured 1
              (Some false) Demo.turnover eq_refl)
    as [s' [H1 [_ [_ [_ [_ H2]]]]]].
  exists s'. split; [exact H1 | exact H2].
Defined.

Lemma paginate_pages_witness :
  QueryBuilder.all (QueryBuilder.paginate 2 3 (QueryBuilder.fresh ExtraDemo.ten))
  = firstn (Z.to_nat 3) (skipn (Z.to_nat ((2 - 1) * 3)) (ExtraDemo.ten [])).
Proof.
  exact (proj1 (paginate_pages nat unit ExtraDemo.ten 2 3
                  ltac:(discriminate) ltac:(discriminate))).
Defined.

Lemma paginate_edges_witness :
  QueryBuilder.paginate 0 0 (QueryBuilder.fresh ExtraDemo.ten)
  = QueryBuilder.paginate 1 0 (QueryBuilder.fresh ExtraDemo.ten)
  /\ QueryBuilder.all (QueryBuilder.limit 0 (QueryBuilder.fresh ExtraDemo.ten))
     = ExtraDemo.ten []
  /\ QueryBuilder.all
       (QueryBuilder.paginate 1 3
          (QueryBuilder.paginate 2 3 (QueryBuilder.fresh ExtraDemo.ten)))
     = QueryBuilder.all (QueryBuilder.paginate 2 3 (QueryBuilder.fresh ExtraDemo.ten)).
Proof.
  split; [|split].
  - exact (proj1 (paginate_edges nat unit (QueryBuilder.fresh ExtraDemo.ten) 0 0)
             eq_refl).
  - exact (proj1 (proj2 (proj2 (proj2
             (paginate_edges nat unit (QueryBuilder.fresh ExtraDemo.ten) 0 0))))
             ExtraDemo.ten 0 ltac:(discriminate)).
  - exact (proj2 (proj2 (proj2 (proj2
             (paginate_edges nat unit (QueryBuilder.fresh ExtraDemo.ten) 2 3))))
             ExtraDemo.ten ltac:(discriminate) ltac:(discriminate)).
Defined.

Lemma create_strategy_supported_witness :
  (exists c, SyncStrategyFactory.create_strategy ExtraDemo.registry "sync_daily_data"
             = inl c)
  /\ exists message,
       SyncStrategyFactory.create_strategy ExtraDemo.registry "sync_news" = inr message.
Proof.
  split.
  - apply (proj1 (create_strategy_supported nat ExtraDemo.registry "sync_daily_data")).
    simpl. auto.
  - apply (proj2 (create_strategy_supported nat ExtraDemo.registry "sync_news")).
    simpl. intuition discriminate.
Defined.

Lemma register_strategy_spec_witness :
  SyncStrategyFactory.get_supported_actions
    (SyncStrategyFactory.register_strategy ExtraDemo.registry "sync_news" 6%nat)
  = (SyncStrategyFactory.get_supported_actions ExtraDemo.registry ++ ["sync_news"])%list
  /\ SyncStrategyFactory.get_supported_actions
       (SyncStrategyFactory.register_strategy ExtraDemo.registry "sync_daily_data" 6%nat)
     = SyncStrategyFactory.get_supported_actions ExtraDemo.registry.
Proof.
  split.
  - apply (proj1 (proj2 (proj2 (proj2
             (register_strategy_spec nat ExtraDemo.registry "sync_news" 6%nat))))).
    simpl. intuition discriminate.
  - apply (proj1 (proj2 (proj2
             (register_strategy_spec nat ExtraDemo.registry "sync_daily_data" 6%nat)))).
    simpl. auto.
Defined.
